(** * ESP32-C3 Android Auto WiFi bridge: the connection life cycle

    A shallow embedding of [firmware/src/main.cpp]: the globals of the
    firmware become one record, the Arduino collaborators (clock, radio,
    listener, client socket, serial port) are answered by a per-tick
    environment, and every function of the firmware is a command of a small
    state-and-trace monad, written in the order of the C++ statements. *)

From Stdlib Require Import ZArith List String Bool Lia.
Import ListNotations.
Local Open Scope Z_scope.

(** ** Machine integers

    [unsigned long] and [uint32_t] are 32 bits wide on the ESP32-C3; their
    arithmetic wraps around. *)

Definition UINT32_MOD : Z := 2 ^ 32.
Definition UINT32_MAX : Z := UINT32_MOD - 1.

Definition u32 (z : Z) : Z := z mod UINT32_MOD.
Definition u32_sub (a b : Z) : Z := u32 (a - b).
Definition u32_incr (a : Z) : Z := u32 (a + 1).

Definition INT32_MAX : Z := 2 ^ 31 - 1.

(** What [printf] shows for a 32-bit argument under [%d]: the low 32 bits
    read as a signed [int]. *)
Definition printf_d (z : Z) : Z :=
  if u32 z <=? INT32_MAX then u32 z else u32 z - UINT32_MOD.

(** ** Configuration (main.cpp, lines 20-33) *)

Record IPAddress : Type := mkIP { ip_a : Z; ip_b : Z; ip_c : Z; ip_d : Z }.

Definition AP_SSID : string := "AndroidAutoWiFi".
Definition AP_PASSWORD : string := "android123".
Definition AP_CHANNEL : Z := 6.
Definition AP_HIDDEN : bool := false.
Definition AP_MAX_CONNECTIONS : Z := 1.

Definition AP_IP : IPAddress := mkIP 192 168 4 1.
Definition AP_GATEWAY : IPAddress := mkIP 192 168 4 1.
Definition AP_SUBNET : IPAddress := mkIP 255 255 255 0.

Definition AA_PORT : Z := 5288.

(** ** State (main.cpp, lines 41-53) *)

Inductive State : Type :=
| INIT
| AP_STARTING
| AP_READY
| CLIENT_CONNECTED
| AA_ACTIVE
| ERROR.

Definition State_eqb (a b : State) : bool :=
  match a, b with
  | INIT, INIT | AP_STARTING, AP_STARTING | AP_READY, AP_READY
  | CLIENT_CONNECTED, CLIENT_CONNECTED | AA_ACTIVE, AA_ACTIVE
  | ERROR, ERROR => true
  | _, _ => false
  end.

(** A transport-layer connection: the descriptor and the peer's address. *)
Record Socket : Type := mkSocket { sock_fd : Z; sock_remote : IPAddress }.

(** A [WiFiClient] either holds a connection or holds nothing (default
    constructed, or after [stop()]). *)
Definition WiFiClient : Type := option Socket.

(** [WiFiServer aaServer(AA_PORT)]: the port given to the constructor, whether
    [begin()] has opened the listener, the no-delay flag, and the inbound
    connections that wait to be accepted. *)
Record WiFiServer : Type := mkServer {
  srv_port : Z;
  srv_listening : bool;
  srv_noDelay : bool;
  srv_pending : list Socket
}.

(** The globals of the firmware. *)
Record World : Type := mkWorld {
  currentState : State;
  lastHeartbeat : Z;
  clientConnectedTime : Z;
  heartbeatCount : Z;
  aaClient : WiFiClient;
  aaServer : WiFiServer
}.

Definition boot : World :=
  {| currentState := INIT;
     lastHeartbeat := 0;
     clientConnectedTime := 0;
     heartbeatCount := 0;
     aaClient := None;
     aaServer := mkServer AA_PORT false false [] |}.

(** ** The collaborators

    What the platform answers during one pass through [loop()] (or through
    [setup()]): the reading of [millis()], whether the peer of a connection
    is still there when [connected()] asks, the lengths that the successive
    [read()] calls return while [available()] is non-zero, the connection
    attempts that reached the listener since the previous pass, the verdicts
    of [softAPConfig] and [softAP], and the figures of the status line. *)
Record Env : Type := mkEnv {
  millis : Z;
  link : Socket -> bool;
  rx : list Z;
  arrivals : list Socket;
  softAPConfig_ok : bool;
  softAP_ok : bool;
  softAPIP : IPAddress;
  freeHeap : Z;
  stationNum : Z
}.

(** What a pass does to the outside, in order. *)
Inductive Event : Type :=
| Banner
| Serial (msg : string)
| Status (count : Z) (name : string) (heap : Z) (stations : Z)
| RemoteIP (ip : option IPAddress)
| DataReceived (len : Z)
| Summary (ssid password : string) (ip : IPAddress) (port : Z)
| Delay (ms : Z)
| Assign (s : State)
| WiFiDisconnect (wifioff : bool)
| WiFiModeAP
| SoftAPConfig (ip gateway subnet : IPAddress)
| SoftAP (ssid password : string) (channel : Z) (hidden : bool) (max_conn : Z)
| ServerBegin (port : Z)
| ServerSetNoDelay (b : bool)
| ServerAccept (c : WiFiClient)
| ClientStop (c : WiFiClient)
| ClientRead (len : Z).

(** ** The monad of the firmware: environment, globals, trace *)

Definition M (A : Type) : Type := Env -> World -> A * World * list Event.

Definition ret {A : Type} (a : A) : M A := fun _ w => (a, w, []).

Definition bind {A B : Type} (m : M A) (k : A -> M B) : M B :=
  fun e w =>
    match m e w with
    | (a, w1, t1) =>
        match k a e w1 with
        | (b, w2, t2) => (b, w2, t1 ++ t2)
        end
    end.

Notation "x <- m ;; k" := (bind m (fun x => k))
  (at level 61, m at next level, right associativity).
Notation "m ;; k" := (bind m (fun _ => k))
  (at level 61, right associativity).

Definition ask {A : Type} (f : Env -> A) : M A := fun e w => (f e, w, []).
Definition gets {A : Type} (f : World -> A) : M A := fun _ w => (f w, w, []).
Definition modify (f : World -> World) : M unit := fun _ w => (tt, f w, []).
Definition emit (ev : Event) : M unit := fun _ w => (tt, w, [ev]).

Definition world_of {A : Type} (r : A * World * list Event) : World := snd (fst r).
Definition trace_of {A : Type} (r : A * World * list Event) : list Event := snd r.

(** Assignments to the globals. *)
Definition with_currentState (s : State) (w : World) : World :=
  mkWorld s (lastHeartbeat w) (clientConnectedTime w) (heartbeatCount w)
          (aaClient w) (aaServer w).
Definition with_lastHeartbeat (t : Z) (w : World) : World :=
  mkWorld (currentState w) t (clientConnectedTime w) (heartbeatCount w)
          (aaClient w) (aaServer w).
Definition with_clientConnectedTime (t : Z) (w : World) : World :=
  mkWorld (currentState w) (lastHeartbeat w) t (heartbeatCount w)
          (aaClient w) (aaServer w).
Definition with_heartbeatCount (n : Z) (w : World) : World :=
  mkWorld (currentState w) (lastHeartbeat w) (clientConnectedTime w) n
          (aaClient w) (aaServer w).
Definition with_aaClient (c : WiFiClient) (w : World) : World :=
  mkWorld (currentState w) (lastHeartbeat w) (clientConnectedTime w)
          (heartbeatCount w) c (aaServer w).
Definition with_aaServer (s : WiFiServer) (w : World) : World :=
  mkWorld (currentState w) (lastHeartbeat w) (clientConnectedTime w)
          (heartbeatCount w) (aaClient w) s.

(** [currentState = s;] *)
Definition set_state (s : State) : M unit :=
  modify (with_currentState s) ;; emit (Assign s).

(** ** The Arduino calls the firmware makes *)

(** [c.connected()]: a handle that holds nothing is not connected; one that
    holds a connection asks the platform.  On the ESP32 core
    [operator bool()] of a [WiFiClient] is [connected()]. *)
Definition connected (e : Env) (c : WiFiClient) : bool :=
  match c with
  | Some s => link e s
  | None => false
  end.

Definition client_bool (e : Env) (c : WiFiClient) : bool := connected e c.

(** [c.stop()]: the connection is given back; nothing is left in the handle. *)
Definition stop (c : WiFiClient) : WiFiClient := None.

Definition remoteIP (c : WiFiClient) : option IPAddress :=
  option_map sock_remote c.

(** [aaServer.hasClient()] *)
Definition hasClient (s : WiFiServer) : bool :=
  srv_listening s && match srv_pending s with [] => false | _ :: _ => true end.

(** [aaServer.available()]: the oldest waiting connection, taken off the
    listener; nothing when none waits. *)
Definition available (s : WiFiServer) : WiFiClient * WiFiServer :=
  if srv_listening s then
    match srv_pending s with
    | [] => (None, s)
    | c :: rest =>
        (Some c, mkServer (srv_port s) (srv_listening s) (srv_noDelay s) rest)
    end
  else (None, s).

(** [aaServer.begin()] listens on the port of the constructor. *)
Definition begin (s : WiFiServer) : WiFiServer :=
  mkServer (srv_port s) true (srv_noDelay s) (srv_pending s).

Definition setNoDelay (b : bool) (s : WiFiServer) : WiFiServer :=
  mkServer (srv_port s) (srv_listening s) b (srv_pending s).

(** Connection attempts reach the listener only while it listens. *)
Definition enqueue (cs : list Socket) (s : WiFiServer) : WiFiServer :=
  if srv_listening s then
    mkServer (srv_port s) (srv_listening s) (srv_noDelay s) (srv_pending s ++ cs)
  else s.

Definition aaClient_bool : M bool :=
  fun e w => (client_bool e (aaClient w), w, []).

Definition aaClient_connected : M bool :=
  fun e w => (connected e (aaClient w), w, []).

(** [aaClient.stop();] *)
Definition aaClient_stop : M unit :=
  c <- gets aaClient ;;
  modify (with_aaClient (stop c)) ;;
  emit (ClientStop c).

Definition server_available : M WiFiClient :=
  fun _ w =>
    let r := available (aaServer w) in
    (fst r, with_aaServer (snd r) w, [ServerAccept (fst r)]).

(** ** stateToString and printStatus (main.cpp, lines 227-246) *)

Definition stateToString (s : State) : string :=
  match s with
  | INIT => "INIT"
  | AP_STARTING => "AP_STARTING"
  | AP_READY => "AP_READY"
  | CLIENT_CONNECTED => "CLIENT_CONNECTED"
  | AA_ACTIVE => "AA_ACTIVE"
  | ERROR => "ERROR"
  end.

(** The counter ([uint32_t]) and the free heap ([uint32_t]) go through
    [%d]; the station count is a [uint8_t], promoted to [int]. *)
Definition printStatus : M unit :=
  fun e w =>
    (tt, w, [Status (printf_d (heartbeatCount w))
                    (stateToString (currentState w))
                    (printf_d (freeHeap e)) (stationNum e)]).

(** ** setupWiFiAP (main.cpp, lines 151-188) *)

Definition setupWiFiAP : M unit :=
  set_state AP_STARTING ;;
  emit (Serial "[INFO] Starting WiFi Access Point...") ;;
  emit (WiFiDisconnect true) ;;
  emit WiFiModeAP ;;
  emit (SoftAPConfig AP_IP AP_GATEWAY AP_SUBNET) ;;
  cfg <- ask softAPConfig_ok ;;
  if negb cfg then
    emit (Serial "[ERROR] AP Config failed!") ;;
    set_state ERROR
  else
    emit (SoftAP AP_SSID AP_PASSWORD AP_CHANNEL AP_HIDDEN AP_MAX_CONNECTIONS) ;;
    ap <- ask softAP_ok ;;
    if negb ap then
      emit (Serial "[ERROR] AP Start failed!") ;;
      set_state ERROR
    else
      port <- gets (fun w => srv_port (aaServer w)) ;;
      modify (fun w => with_aaServer (begin (aaServer w)) w) ;;
      emit (ServerBegin port) ;;
      modify (fun w => with_aaServer (setNoDelay true (aaServer w)) w) ;;
      emit (ServerSetNoDelay true) ;;
      emit (Serial "[OK] WiFi AP started successfully!") ;;
      ip <- ask softAPIP ;;
      emit (Summary AP_SSID AP_PASSWORD ip AA_PORT) ;;
      set_state AP_READY.

(** ** setup (main.cpp, lines 68-90): banner, chip report, bring-up *)

Definition setup : M unit :=
  emit (Delay 1000) ;;
  emit Banner ;;
  setupWiFiAP.

(** ** handleClient (main.cpp, lines 194-221) *)

(** The [while (aaClient.available())] loop: one iteration per length the
    platform hands out; it ends when nothing more is immediately available. *)
Fixpoint drain (lens : list Z) : M unit :=
  match lens with
  | [] => ret tt
  | len :: rest =>
      emit (ClientRead len) ;;
      (if 0 <? len then
         emit (DataReceived len) ;;
         s <- gets currentState ;;
         if State_eqb s CLIENT_CONNECTED then
           set_state AA_ACTIVE ;;
           emit (Serial "[INFO] Android Auto session active")
         else ret tt
       else ret tt) ;;
      drain rest
  end.

Definition handleClient : M unit :=
  valid <- aaClient_bool ;;
  conn <- aaClient_connected ;;
  if negb valid || negb conn then
    emit (Serial "[INFO] Client disconnected") ;;
    set_state AP_READY ;;
    aaClient_stop
  else
    lens <- ask rx ;;
    drain lens.

(** ** loop (main.cpp, lines 96-145) *)

Definition heartbeat (now : Z) : M unit :=
  last <- gets lastHeartbeat ;;
  if 5000 <=? u32_sub now last then
    modify (with_lastHeartbeat now) ;;
    modify (fun w => with_heartbeatCount (u32_incr (heartbeatCount w)) w) ;;
    printStatus
  else ret tt.

(** The [case State::AP_READY] arm of the switch. *)
Definition check_for_new_clients (now : Z) : M unit :=
  pending <- gets (fun w => hasClient (aaServer w)) ;;
  if pending then
    valid <- aaClient_bool ;;
    conn <- aaClient_connected ;;
    if valid && conn then
      reject <- server_available ;;
      emit (ClientStop reject) ;;
      emit (Serial "[WARN] Rejected additional client connection")
    else
      c <- server_available ;;
      modify (with_aaClient c) ;;
      valid' <- aaClient_bool ;;
      if valid' then
        set_state CLIENT_CONNECTED ;;
        modify (with_clientConnectedTime now) ;;
        emit (Serial "[INFO] Client connected!") ;;
        ip <- gets (fun w => remoteIP (aaClient w)) ;;
        emit (RemoteIP ip)
      else ret tt
  else ret tt.

Definition dispatch (now : Z) : M unit :=
  s <- gets currentState ;;
  match s with
  | AP_READY => check_for_new_clients now
  | CLIENT_CONNECTED | AA_ACTIVE => handleClient
  | ERROR => emit (Delay 5000) ;; setupWiFiAP
  | INIT | AP_STARTING => ret tt
  end.

Definition loop : M unit :=
  now <- ask millis ;;
  heartbeat now ;;
  dispatch now ;;
  emit (Delay 10).

(** ** Runs: the platform between passes, then the pass *)

(** Connection attempts that arrived since the previous pass wait at the
    listener when the pass starts. *)
Definition arrive (e : Env) (w : World) : World :=
  with_aaServer (enqueue (arrivals e) (aaServer w)) w.

Definition tick (e : Env) (w : World) : World :=
  world_of (loop e (arrive e w)).

Definition tick_trace (e : Env) (w : World) : list Event :=
  trace_of (loop e (arrive e w)).

Definition power_on (e : Env) : World := world_of (setup e boot).

Fixpoint run (es : list Env) (w : World) : World :=
  match es with
  | [] => w
  | e :: rest => run rest (tick e w)
  end.

(** ** Reading a trace *)

Definition is_status (ev : Event) : bool :=
  match ev with Status _ _ _ _ => true | _ => false end.

(** How many status lines (heartbeats) a trace holds. *)
Definition heartbeats (t : list Event) : nat := List.length (filter is_status t).

(** The lengths returned by the reads of a trace, in order. *)
Fixpoint reads_of (t : list Event) : list Z :=
  match t with
  | [] => []
  | ClientRead len :: rest => len :: reads_of rest
  | _ :: rest => reads_of rest
  end.

(** The handles the listener handed out. *)
Fixpoint accepts_of (t : list Event) : list WiFiClient :=
  match t with
  | [] => []
  | ServerAccept c :: rest => c :: accepts_of rest
  | _ :: rest => accepts_of rest
  end.

(** The handles that were released. *)
Fixpoint stops_of (t : list Event) : list WiFiClient :=
  match t with
  | [] => []
  | ClientStop c :: rest => c :: stops_of rest
  | _ :: rest => stops_of rest
  end.

(** The values assigned to [currentState], in order. *)
Fixpoint assigns_of (t : list Event) : list State :=
  match t with
  | [] => []
  | Assign s :: rest => s :: assigns_of rest
  | _ :: rest => assigns_of rest
  end.

(** The blocking waits. *)
Fixpoint delays_of (t : list Event) : list Z :=
  match t with
  | [] => []
  | Delay ms :: rest => ms :: delays_of rest
  | _ :: rest => delays_of rest
  end.

Definition is_SoftAP (ev : Event) : bool :=
  match ev with SoftAP _ _ _ _ _ => true | _ => false end.

(** Some read of the list brought at least one byte. *)
Definition some_positive (lens : list Z) : bool := existsb (fun l => 0 <? l) lens.

(** The existing Session as the spec describes it: the handle with the
    peer's address, the time of admission, and the activity flag, which the
    firmware keeps as [currentState == AA_ACTIVE]. *)
Definition session_remote (w : World) : option IPAddress := remoteIP (aaClient w).
Definition session_time (w : World) : Z := clientConnectedTime w.
Definition session_active (w : World) : bool := State_eqb (currentState w) AA_ACTIVE.

(** A live Session: the handle holds a connection whose peer is there. *)
Definition session_live (e : Env) (w : World) : bool := connected e (aaClient w).

(** The world the switch sees: the globals after the heartbeat check. *)
Definition after_heartbeat (e : Env) (w : World) : World :=
  world_of (heartbeat (millis e) e w).

(** Every bring-up of the list is refused, at either step. *)
Definition all_refused (es : list Env) : bool :=
  forallb (fun e => negb (softAPConfig_ok e && softAP_ok e)) es.

(** The states in which the access point is up. *)
Definition serving (s : State) : bool :=
  match s with
  | AP_READY | CLIENT_CONNECTED | AA_ACTIVE => true
  | INIT | AP_STARTING | ERROR => false
  end.

(** ** Sample peers and passes *)

Definition phone : Socket := mkSocket 48 (mkIP 192 168 4 2).
Definition tablet : Socket := mkSocket 49 (mkIP 192 168 4 3).

(** A pass at time [now] in which the radio obeys, every peer is still
    there, nothing arrives and nothing is to be read. *)
Definition quiet (now : Z) : Env :=
  mkEnv now (fun _ => true) [] [] true true AP_IP 200000 0.

(** As [quiet], with the given connection attempts reaching the listener. *)
Definition knocking (now : Z) (cs : list Socket) : Env :=
  mkEnv now (fun _ => true) [] cs true true AP_IP 200000 1.

(** As [quiet], with the given read lengths waiting on the session. *)
Definition sending (now : Z) (lens : list Z) : Env :=
  mkEnv now (fun _ => true) lens [] true true AP_IP 200000 1.

(** As [quiet], but the peer of every held connection is gone. *)
Definition hung_up (now : Z) : Env :=
  mkEnv now (fun _ => false) [] [] true true AP_IP 200000 0.

(** A pass in which the radio refuses the activation. *)
Definition refusing (now : Z) : Env :=
  mkEnv now (fun _ => true) [] [] true false AP_IP 200000 0.

(** A pass in which the radio refuses the address configuration. *)
Definition misconfigured (now : Z) : Env :=
  mkEnv now (fun _ => true) [] [] false true AP_IP 200000 0.

(** The listener once bring-up has succeeded, with the given backlog. *)
Definition listening (cs : list Socket) : WiFiServer :=
  mkServer AA_PORT true true cs.

(** The phone has been admitted at time 1000 and has not sent anything. *)
Definition phone_connected : World :=
  mkWorld CLIENT_CONNECTED 0 1000 0 (Some phone) (listening []).

(** The phone's session is active; the tablet waits at the listener. *)
Definition phone_active_tablet_waiting : World :=
  mkWorld AA_ACTIVE 0 1000 0 (Some phone) (listening [tablet]).

(** [AP_READY] with the phone's handle held and the tablet waiting. *)
Definition ready_holding_phone : World :=
  mkWorld AP_READY 0 1000 0 (Some phone) (listening [tablet]).

(** [ERROR] after a refused bring-up at power-on. *)
Definition error_after_boot : World :=
  mkWorld ERROR 0 0 0 None (mkServer AA_PORT false false []).

(** The counter at the top of its range. *)
Definition counter_at_max : World :=
  mkWorld AP_READY 0 0 UINT32_MAX None (listening []).

(** ** Runs and what they print *)

(** The trace of a run: the traces of its passes, one after the other. *)
Fixpoint run_trace (es : list Env) (w : World) : list Event :=
  match es with
  | [] => []
  | e :: rest => tick_trace e w ++ run_trace rest (tick e w)
  end.

(** The clock reading of the last pass of a run that printed a status
    line; [t0] when no pass of the run did. *)
Fixpoint last_fired (t0 : Z) (es : list Env) (w : World) : Z :=
  match es with
  | [] => t0
  | e :: rest =>
      last_fired (if (0 <? heartbeats (tick_trace e w))%nat
                  then millis e else t0)
                 rest (tick e w)
  end.

(** The numbers shown by the status lines of a trace. *)
Fixpoint status_counts (t : list Event) : list Z :=
  match t with
  | [] => []
  | Status n _ _ _ :: rest => n :: status_counts rest
  | _ :: rest => status_counts rest
  end.

(** The lengths reported by the [[DATA]] lines of a trace. *)
Fixpoint data_of (t : list Event) : list Z :=
  match t with
  | [] => []
  | DataReceived len :: rest => len :: data_of rest
  | _ :: rest => data_of rest
  end.

(** The calls to the radio and to the listener's set-up. *)
Definition is_radio (ev : Event) : bool :=
  match ev with
  | WiFiDisconnect _ | WiFiModeAP | SoftAPConfig _ _ _ | SoftAP _ _ _ _ _
  | ServerBegin _ | ServerSetNoDelay _ => true
  | _ => false
  end.

(** The assignments the firmware makes to [currentState], as edges: from
    the state the assignment finds to the state it writes. *)
Definition transition (a b : State) : bool :=
  match a, b with
  | INIT, AP_STARTING
  | ERROR, AP_STARTING
  | AP_STARTING, AP_READY
  | AP_STARTING, ERROR
  | AP_READY, CLIENT_CONNECTED
  | CLIENT_CONNECTED, AA_ACTIVE
  | CLIENT_CONNECTED, AP_READY
  | AA_ACTIVE, AP_READY => true
  | _, _ => false
  end.

(** A sequence of assignments that starts in [s] moves along edges only. *)
Fixpoint follows (s : State) (l : list State) : bool :=
  match l with
  | [] => true
  | x :: rest => transition s x && follows x rest
  end.

(** The globals with other values for the two globals of the heartbeat. *)
Definition rehb (lh hc : Z) (w : World) : World :=
  mkWorld (currentState w) lh (clientConnectedTime w) hc (aaClient w)
          (aaServer w).

Definition holds_connection (c : WiFiClient) : bool :=
  match c with Some _ => true | None => false end.

(** What holds of the globals at the start of every pass after power-on. *)
Definition consistent (w : World) : Prop :=
  srv_port (aaServer w) = AA_PORT /\
  match currentState w with
  | INIT | AP_STARTING => False
  | ERROR =>
      aaClient w = None /\ srv_listening (aaServer w) = false /\
      srv_pending (aaServer w) = [] /\ clientConnectedTime w = 0
  | AP_READY =>
      srv_listening (aaServer w) = true /\ srv_noDelay (aaServer w) = true
  | CLIENT_CONNECTED | AA_ACTIVE =>
      srv_listening (aaServer w) = true /\ srv_noDelay (aaServer w) = true /\
      holds_connection (aaClient w) = true
  end.

(** [AP_READY] with nothing held, the phone first in the backlog. *)
Definition ready_phone_waiting : World :=
  mkWorld AP_READY 0 0 0 None (listening [phone; tablet]).

(** A pass at [now] in which the peer on descriptor 48 is gone. *)
Definition phone_gone (now : Z) : Env :=
  mkEnv now (fun s => negb (sock_fd s =? 48)) [] [] true true AP_IP 200000 1.

(** ** Equations of the commands *)

Lemma bind_world {A B : Type} (m : M A) (k : A -> M B) e w :
  world_of (bind m k e w) = world_of (k (fst (fst (m e w))) e (world_of (m e w))).
Proof.
  unfold bind, world_of.
  destruct (m e w) as [[a w1] t1]; simpl.
  destruct (k a e w1) as [[b w2] t2]; reflexivity.
Qed.

Lemma bind_trace {A B : Type} (m : M A) (k : A -> M B) e w :
  trace_of (bind m k e w) =
  trace_of (m e w) ++ trace_of (k (fst (fst (m e w))) e (world_of (m e w))).
Proof.
  unfold bind, trace_of, world_of.
  destruct (m e w) as [[a w1] t1]; simpl.
  destruct (k a e w1) as [[b w2] t2]; reflexivity.
Qed.

Ltac step_m :=
  unfold set_state, aaClient_stop, aaClient_bool, aaClient_connected,
    server_available, printStatus, bind, ret, ask, gets, modify, emit,
    world_of, trace_of; cbn.

Lemma heartbeat_fires now e w :
  5000 <= u32_sub now (lastHeartbeat w) ->
  heartbeat now e w =
  (tt,
   with_heartbeatCount (u32_incr (heartbeatCount w)) (with_lastHeartbeat now w),
   [Status (printf_d (u32_incr (heartbeatCount w)))
           (stateToString (currentState w))
           (printf_d (freeHeap e)) (stationNum e)]).
Proof.
  intros H. unfold heartbeat. step_m.
  apply Z.leb_le in H. rewrite H. reflexivity.
Qed.

Lemma heartbeat_idle now e w :
  u32_sub now (lastHeartbeat w) < 5000 ->
  heartbeat now e w = (tt, w, []).
Proof.
  intros H. unfold heartbeat. step_m.
  apply Z.leb_gt in H. rewrite H. reflexivity.
Qed.

Lemma heartbeat_currentState now e w :
  currentState (world_of (heartbeat now e w)) = currentState w.
Proof.
  unfold heartbeat. step_m.
  destruct (5000 <=? u32_sub now (lastHeartbeat w)); reflexivity.
Qed.

Lemma heartbeat_aaClient now e w :
  aaClient (world_of (heartbeat now e w)) = aaClient w.
Proof.
  unfold heartbeat. step_m.
  destruct (5000 <=? u32_sub now (lastHeartbeat w)); reflexivity.
Qed.

Lemma heartbeat_aaServer now e w :
  aaServer (world_of (heartbeat now e w)) = aaServer w.
Proof.
  unfold heartbeat. step_m.
  destruct (5000 <=? u32_sub now (lastHeartbeat w)); reflexivity.
Qed.

Lemma heartbeat_clientConnectedTime now e w :
  clientConnectedTime (world_of (heartbeat now e w)) = clientConnectedTime w.
Proof.
  unfold heartbeat. step_m.
  destruct (5000 <=? u32_sub now (lastHeartbeat w)); reflexivity.
Qed.

(** A pass is the heartbeat check, then the switch, then the short wait. *)
Lemma loop_world e w :
  world_of (loop e w) =
  world_of (dispatch (millis e) e (world_of (heartbeat (millis e) e w))).
Proof.
  unfold loop.
  rewrite bind_world. cbn [ask fst world_of snd].
  rewrite bind_world, bind_world. reflexivity.
Qed.

Lemma loop_trace e w :
  trace_of (loop e w) =
  trace_of (heartbeat (millis e) e w) ++
  trace_of (dispatch (millis e) e (world_of (heartbeat (millis e) e w))) ++
  [Delay 10].
Proof.
  unfold loop.
  rewrite bind_trace. cbn [ask fst world_of snd trace_of app].
  rewrite bind_trace, bind_trace. reflexivity.
Qed.

Lemma bind_gets {A B : Type} (f : World -> A) (k : A -> M B) e w :
  bind (gets f) k e w = k (f w) e w.
Proof.
  unfold bind, gets. destruct (k (f w) e w) as [[b w2] t2]; reflexivity.
Qed.

Lemma bind_ask {A B : Type} (f : Env -> A) (k : A -> M B) e w :
  bind (ask f) k e w = k (f e) e w.
Proof.
  unfold bind, ask. destruct (k (f e) e w) as [[b w2] t2]; reflexivity.
Qed.

Lemma bind_modify {B : Type} (f : World -> World) (k : unit -> M B) e w :
  bind (modify f) k e w = k tt e (f w).
Proof.
  unfold bind, modify. destruct (k tt e (f w)) as [[b w2] t2]; reflexivity.
Qed.

Lemma bind_emit {B : Type} (ev : Event) (k : unit -> M B) e w :
  bind (emit ev) k e w =
  (fst (fst (k tt e w)), world_of (k tt e w), ev :: trace_of (k tt e w)).
Proof.
  unfold bind, emit, world_of, trace_of.
  destruct (k tt e w) as [[b w2] t2]; reflexivity.
Qed.

Lemma dispatch_eq now e w :
  dispatch now e w =
  match currentState w with
  | AP_READY => check_for_new_clients now e w
  | CLIENT_CONNECTED | AA_ACTIVE => handleClient e w
  | ERROR => (emit (Delay 5000) ;; setupWiFiAP) e w
  | INIT | AP_STARTING => (tt, w, [])
  end.
Proof.
  unfold dispatch. rewrite bind_gets.
  destruct (currentState w); reflexivity.
Qed.

(** The three ways through [setupWiFiAP]. *)
Lemma setupWiFiAP_config_rejected e w :
  softAPConfig_ok e = false ->
  setupWiFiAP e w =
  (tt, with_currentState ERROR (with_currentState AP_STARTING w),
   [Assign AP_STARTING; Serial "[INFO] Starting WiFi Access Point...";
    WiFiDisconnect true; WiFiModeAP; SoftAPConfig AP_IP AP_GATEWAY AP_SUBNET;
    Serial "[ERROR] AP Config failed!"; Assign ERROR]).
Proof.
  intros H. unfold setupWiFiAP. step_m. rewrite H. reflexivity.
Qed.

Lemma setupWiFiAP_start_rejected e w :
  softAPConfig_ok e = true -> softAP_ok e = false ->
  setupWiFiAP e w =
  (tt, with_currentState ERROR (with_currentState AP_STARTING w),
   [Assign AP_STARTING; Serial "[INFO] Starting WiFi Access Point...";
    WiFiDisconnect true; WiFiModeAP; SoftAPConfig AP_IP AP_GATEWAY AP_SUBNET;
    SoftAP AP_SSID AP_PASSWORD AP_CHANNEL AP_HIDDEN AP_MAX_CONNECTIONS;
    Serial "[ERROR] AP Start failed!"; Assign ERROR]).
Proof.
  intros H1 H2. unfold setupWiFiAP. step_m. rewrite H1. cbn. rewrite H2.
  reflexivity.
Qed.

Lemma setupWiFiAP_ready e w :
  softAPConfig_ok e = true -> softAP_ok e = true ->
  setupWiFiAP e w =
  (tt,
   with_currentState AP_READY
     (with_aaServer (setNoDelay true (begin (aaServer w)))
        (with_currentState AP_STARTING w)),
   [Assign AP_STARTING; Serial "[INFO] Starting WiFi Access Point...";
    WiFiDisconnect true; WiFiModeAP; SoftAPConfig AP_IP AP_GATEWAY AP_SUBNET;
    SoftAP AP_SSID AP_PASSWORD AP_CHANNEL AP_HIDDEN AP_MAX_CONNECTIONS;
    ServerBegin (srv_port (aaServer w)); ServerSetNoDelay true;
    Serial "[OK] WiFi AP started successfully!";
    Summary AP_SSID AP_PASSWORD (softAPIP e) AA_PORT; Assign AP_READY]).
Proof.
  intros H1 H2. unfold setupWiFiAP. step_m. rewrite H1. cbn. rewrite H2.
  reflexivity.
Qed.

(** Bring-up reads nothing of the globals but the listener's port, and
    never touches the session handle, the time stamps or the counter. *)
Lemma setupWiFiAP_aaClient e w :
  aaClient (world_of (setupWiFiAP e w)) = aaClient w.
Proof.
  destruct (softAPConfig_ok e) eqn:H1; [destruct (softAP_ok e) eqn:H2|].
  - rewrite setupWiFiAP_ready by assumption. reflexivity.
  - rewrite setupWiFiAP_start_rejected by assumption. reflexivity.
  - rewrite setupWiFiAP_config_rejected by assumption. reflexivity.
Qed.

(** The two ways through [handleClient]. *)
Lemma handleClient_gone e w :
  connected e (aaClient w) = false ->
  handleClient e w =
  (tt, with_aaClient None (with_currentState AP_READY w),
   [Serial "[INFO] Client disconnected"; Assign AP_READY;
    ClientStop (aaClient w)]).
Proof.
  intros H. unfold handleClient. step_m. unfold client_bool. rewrite H.
  reflexivity.
Qed.

Lemma handleClient_alive e w :
  connected e (aaClient w) = true ->
  handleClient e w = drain (rx e) e w.
Proof.
  intros H. unfold handleClient, aaClient_bool, aaClient_connected.
  unfold bind at 1. unfold bind at 1. unfold client_bool. rewrite H. cbn.
  destruct (drain (rx e) e w) as [[u w2] t2]. reflexivity.
Qed.

(** The read loop only ever moves [CLIENT_CONNECTED] to [AA_ACTIVE], and
    does so exactly when some read brought bytes. *)
Lemma drain_world lens : forall e w,
  world_of (drain lens e w) =
  if State_eqb (currentState w) CLIENT_CONNECTED && some_positive lens
  then with_currentState AA_ACTIVE w else w.
Proof.
  induction lens as [|len rest IH]; intros e w.
  - cbn. rewrite andb_false_r. reflexivity.
  - cbn [drain some_positive existsb].
    rewrite bind_emit. cbn [world_of fst snd].
    fold (world_of (A:=unit)).
    rewrite bind_world, IH.
    destruct (0 <? len) eqn:Hlen.
    + rewrite bind_emit. cbn [world_of fst snd]. fold (world_of (A:=unit)).
      rewrite bind_gets.
      destruct (currentState w) eqn:Hs; cbn; try rewrite Hs; cbn;
        try reflexivity.
    + cbn. reflexivity.
Qed.

Lemma drain_reads lens : forall e w,
  reads_of (trace_of (drain lens e w)) = lens.
Proof.
  induction lens as [|len rest IH]; intros e w.
  - reflexivity.
  - cbn [drain]. rewrite bind_emit. cbn [trace_of snd reads_of].
    fold (trace_of (A:=unit)).
    rewrite bind_trace.
    assert (Hin : forall a b, reads_of (a ++ b) = reads_of a ++ reads_of b).
    { induction a as [|x a IHa]; intros b; [reflexivity|].
      destruct x; cbn; rewrite ?IHa; reflexivity. }
    rewrite Hin, IH.
    destruct (0 <? len); [|reflexivity].
    rewrite bind_emit. cbn [trace_of snd reads_of]. fold (trace_of (A:=unit)).
    rewrite bind_gets.
    destruct (State_eqb (currentState w) CLIENT_CONNECTED); reflexivity.
Qed.

(** The ways through the [AP_READY] arm. *)
Lemma check_none_pending now e w :
  hasClient (aaServer w) = false ->
  check_for_new_clients now e w = (tt, w, []).
Proof.
  intros H. unfold check_for_new_clients. rewrite bind_gets, H. reflexivity.
Qed.

Lemma check_reject now e w :
  hasClient (aaServer w) = true ->
  connected e (aaClient w) = true ->
  check_for_new_clients now e w =
  (tt, with_aaServer (snd (available (aaServer w))) w,
   [ServerAccept (fst (available (aaServer w)));
    ClientStop (fst (available (aaServer w)));
    Serial "[WARN] Rejected additional client connection"]).
Proof.
  intros H1 H2. unfold check_for_new_clients. rewrite bind_gets, H1.
  step_m. unfold client_bool. rewrite H2. reflexivity.
Qed.

Lemma check_accept now e w :
  hasClient (aaServer w) = true ->
  connected e (aaClient w) = false ->
  connected e (fst (available (aaServer w))) = true ->
  check_for_new_clients now e w =
  (tt,
   with_clientConnectedTime now
     (with_currentState CLIENT_CONNECTED
        (with_aaClient (fst (available (aaServer w)))
           (with_aaServer (snd (available (aaServer w))) w))),
   [ServerAccept (fst (available (aaServer w))); Assign CLIENT_CONNECTED;
    Serial "[INFO] Client connected!";
    RemoteIP (remoteIP (fst (available (aaServer w))))]).
Proof.
  intros H1 H2 H3. unfold check_for_new_clients. rewrite bind_gets, H1.
  step_m. unfold client_bool. rewrite H2. cbn. rewrite H3. reflexivity.
Qed.

Lemma check_stillborn now e w :
  hasClient (aaServer w) = true ->
  connected e (aaClient w) = false ->
  connected e (fst (available (aaServer w))) = false ->
  check_for_new_clients now e w =
  (tt,
   with_aaClient (fst (available (aaServer w)))
     (with_aaServer (snd (available (aaServer w))) w),
   [ServerAccept (fst (available (aaServer w)))]).
Proof.
  intros H1 H2 H3. unfold check_for_new_clients. rewrite bind_gets, H1.
  step_m. unfold client_bool. rewrite H2. cbn. rewrite H3. reflexivity.
Qed.

Lemma hasClient_pending s :
  hasClient s = true ->
  exists c rest,
    srv_listening s = true /\ srv_pending s = c :: rest /\
    available s = (Some c, mkServer (srv_port s) true (srv_noDelay s) rest).
Proof.
  unfold hasClient, available. intros H.
  apply andb_true_iff in H. destruct H as [Hl Hp]. rewrite Hl.
  destruct (srv_pending s) as [|c rest]; [discriminate|].
  exists c, rest. auto.
Qed.

(** The recovery arm. *)
Lemma recovery_eq e w :
  (emit (Delay 5000) ;; setupWiFiAP) e w =
  (tt, world_of (setupWiFiAP e w), Delay 5000 :: trace_of (setupWiFiAP e w)).
Proof.
  rewrite bind_emit. destruct (setupWiFiAP e w) as [[[] w2] t2]. reflexivity.
Qed.

(** ** What a pass leaves alone *)

Ltac dispatch_cases e w :=
  rewrite dispatch_eq;
  let Hs := fresh "Hs" in
  destruct (currentState w) eqn:Hs;
  [ idtac | idtac
  | destruct (hasClient (aaServer w)) eqn:?;
    [ destruct (connected e (aaClient w)) eqn:?;
      [ rewrite check_reject by assumption
      | destruct (connected e (fst (available (aaServer w)))) eqn:?;
        [ rewrite check_accept by assumption
        | rewrite check_stillborn by assumption ] ]
    | rewrite check_none_pending by assumption ]
  | destruct (connected e (aaClient w)) eqn:?;
    [ rewrite handleClient_alive by assumption
    | rewrite handleClient_gone by assumption ]
  | destruct (connected e (aaClient w)) eqn:?;
    [ rewrite handleClient_alive by assumption
    | rewrite handleClient_gone by assumption ]
  | rewrite recovery_eq;
    destruct (softAPConfig_ok e) eqn:?;
    [ destruct (softAP_ok e) eqn:?;
      [ rewrite setupWiFiAP_ready by assumption
      | rewrite setupWiFiAP_start_rejected by assumption ]
    | rewrite setupWiFiAP_config_rejected by assumption ] ].

Lemma drain_frame lens e w :
  lastHeartbeat (world_of (drain lens e w)) = lastHeartbeat w /\
  heartbeatCount (world_of (drain lens e w)) = heartbeatCount w /\
  clientConnectedTime (world_of (drain lens e w)) = clientConnectedTime w /\
  aaClient (world_of (drain lens e w)) = aaClient w /\
  aaServer (world_of (drain lens e w)) = aaServer w.
Proof.
  rewrite drain_world.
  destruct (State_eqb (currentState w) CLIENT_CONNECTED && some_positive lens);
    repeat split; reflexivity.
Qed.

Lemma dispatch_lastHeartbeat now e w :
  lastHeartbeat (world_of (dispatch now e w)) = lastHeartbeat w.
Proof.
  dispatch_cases e w; try reflexivity; apply drain_frame.
Qed.

Lemma dispatch_heartbeatCount now e w :
  heartbeatCount (world_of (dispatch now e w)) = heartbeatCount w.
Proof.
  dispatch_cases e w; try reflexivity; apply drain_frame.
Qed.

Lemma heartbeats_app a b : heartbeats (a ++ b) = (heartbeats a + heartbeats b)%nat.
Proof.
  unfold heartbeats. rewrite filter_app, length_app. reflexivity.
Qed.

Lemma drain_no_heartbeat lens : forall e w,
  heartbeats (trace_of (drain lens e w)) = 0%nat.
Proof.
  induction lens as [|len rest IH]; intros e w; [reflexivity|].
  cbn [drain]. rewrite bind_emit. cbn [trace_of snd].
  fold (trace_of (A:=unit)).
  change (ClientRead len :: ?t) with ([ClientRead len] ++ t).
  rewrite heartbeats_app, bind_trace, heartbeats_app, IH.
  destruct (0 <? len); [|reflexivity].
  rewrite bind_emit, bind_gets.
  destruct (State_eqb (currentState w) CLIENT_CONNECTED); reflexivity.
Qed.

(** Only the heartbeat check prints a status line. *)
Lemma dispatch_no_heartbeat now e w :
  heartbeats (trace_of (dispatch now e w)) = 0%nat.
Proof.
  dispatch_cases e w; try reflexivity; apply drain_no_heartbeat.
Qed.

(** ** The heartbeat *)

Lemma u32_sub_wrapped last d :
  0 <= d < UINT32_MOD -> u32_sub (u32 (last + d)) last = d.
Proof.
  intros Hd. unfold u32_sub, u32, UINT32_MOD in *.
  rewrite Zminus_mod_idemp_l.
  replace (last + d - last) with d by lia.
  apply Z.mod_small. exact Hd.
Qed.

Lemma loop_heartbeats e w :
  heartbeats (trace_of (loop e w)) =
  if 5000 <=? u32_sub (millis e) (lastHeartbeat w) then 1%nat else 0%nat.
Proof.
  rewrite loop_trace, !heartbeats_app, dispatch_no_heartbeat.
  destruct (5000 <=? u32_sub (millis e) (lastHeartbeat w)) eqn:H.
  - apply Z.leb_le in H. rewrite heartbeat_fires by exact H. reflexivity.
  - apply Z.leb_gt in H. rewrite heartbeat_idle by exact H. reflexivity.
Qed.

Lemma loop_lastHeartbeat e w :
  lastHeartbeat (world_of (loop e w)) =
  if 5000 <=? u32_sub (millis e) (lastHeartbeat w)
  then millis e else lastHeartbeat w.
Proof.
  rewrite loop_world, dispatch_lastHeartbeat.
  destruct (5000 <=? u32_sub (millis e) (lastHeartbeat w)) eqn:H.
  - apply Z.leb_le in H. rewrite heartbeat_fires by exact H. reflexivity.
  - apply Z.leb_gt in H. rewrite heartbeat_idle by exact H. reflexivity.
Qed.

Lemma loop_heartbeatCount e w :
  heartbeatCount (world_of (loop e w)) =
  if 5000 <=? u32_sub (millis e) (lastHeartbeat w)
  then u32_incr (heartbeatCount w) else heartbeatCount w.
Proof.
  rewrite loop_world, dispatch_heartbeatCount.
  destruct (5000 <=? u32_sub (millis e) (lastHeartbeat w)) eqn:H.
  - apply Z.leb_le in H. rewrite heartbeat_fires by exact H. reflexivity.
  - apply Z.leb_gt in H. rewrite heartbeat_idle by exact H. reflexivity.
Qed.

(** C9, as the code has it.  On a firing [lastHeartbeat] becomes the clock
    reading of this pass and [heartbeatCount] is incremented as a [uint32_t]:
    by exactly one below 4294967295, and from 4294967295 to 0.  A pass prints
    at most one status line however long the gap was.  Without a firing both
    globals keep their values.  The counter does not decrease across a pass
    as long as it is below 4294967295. *)
Theorem heartbeat_bookkeeping (e : Env) (w : World) :
  (5000 <= u32_sub (millis e) (lastHeartbeat w) ->
   lastHeartbeat (world_of (loop e w)) = millis e /\
   heartbeatCount (world_of (loop e w)) = u32_incr (heartbeatCount w) /\
   (0 <= heartbeatCount w < UINT32_MAX ->
    heartbeatCount (world_of (loop e w)) = heartbeatCount w + 1) /\
   (heartbeatCount w = UINT32_MAX ->
    heartbeatCount (world_of (loop e w)) = 0)) /\
  (heartbeats (trace_of (loop e w)) <= 1)%nat /\
  (u32_sub (millis e) (lastHeartbeat w) < 5000 ->
   lastHeartbeat (world_of (loop e w)) = lastHeartbeat w /\
   heartbeatCount (world_of (loop e w)) = heartbeatCount w) /\
  (0 <= heartbeatCount w < UINT32_MAX ->
   heartbeatCount w <= heartbeatCount (world_of (loop e w))).
Proof.
  rewrite loop_heartbeats, loop_lastHeartbeat, loop_heartbeatCount.
  assert (Hinc : 0 <= heartbeatCount w < UINT32_MAX ->
                 u32_incr (heartbeatCount w) = heartbeatCount w + 1).
  { intros H. unfold u32_incr, u32, UINT32_MAX, UINT32_MOD in *.
    apply Z.mod_small. lia. }
  destruct (5000 <=? u32_sub (millis e) (lastHeartbeat w)) eqn:H.
  - apply Z.leb_le in H.
    split; [intros _; split; [reflexivity|split; [reflexivity|split]]|].
    + exact Hinc.
    + intros ->. reflexivity.
    + split; [lia|]. split; [intros H'; lia|].
      intros Hr. rewrite Hinc by exact Hr. lia.
  - apply Z.leb_gt in H.
    split; [intros H'; lia|]. split; [lia|].
    split; [intros _; split; reflexivity|]. intros _. lia.
Qed.

(** ** Bring-up *)

(** C3. [setupWiFiAP] on the listener built at line 34: when the static
    address configuration is refused, [currentState] ends as [ERROR], the
    access point is never started and the listener is left as it was; when
    the configuration is applied but the activation is refused,
    [currentState] ends as [ERROR]; otherwise the listener is opened on
    [AA_PORT] with no-delay set and [currentState] ends as [AP_READY]. *)
Theorem bring_up_outcome (e : Env) (w : World) :
  srv_port (aaServer w) = AA_PORT ->
  (softAPConfig_ok e = false ->
   currentState (world_of (setupWiFiAP e w)) = ERROR /\
   existsb is_SoftAP (trace_of (setupWiFiAP e w)) = false /\
   aaServer (world_of (setupWiFiAP e w)) = aaServer w) /\
  (softAPConfig_ok e = true -> softAP_ok e = false ->
   currentState (world_of (setupWiFiAP e w)) = ERROR /\
   In (SoftAP AP_SSID AP_PASSWORD AP_CHANNEL AP_HIDDEN AP_MAX_CONNECTIONS)
      (trace_of (setupWiFiAP e w)) /\
   aaServer (world_of (setupWiFiAP e w)) = aaServer w) /\
  (softAPConfig_ok e = true -> softAP_ok e = true ->
   currentState (world_of (setupWiFiAP e w)) = AP_READY /\
   In (SoftAP AP_SSID AP_PASSWORD AP_CHANNEL AP_HIDDEN AP_MAX_CONNECTIONS)
      (trace_of (setupWiFiAP e w)) /\
   In (ServerBegin AA_PORT) (trace_of (setupWiFiAP e w)) /\
   In (ServerSetNoDelay true) (trace_of (setupWiFiAP e w)) /\
   srv_listening (aaServer (world_of (setupWiFiAP e w))) = true /\
   srv_port (aaServer (world_of (setupWiFiAP e w))) = AA_PORT /\
   srv_noDelay (aaServer (world_of (setupWiFiAP e w))) = true) /\
  hd_error (trace_of (setupWiFiAP e w)) = Some (Assign AP_STARTING) /\
  In (SoftAPConfig AP_IP AP_GATEWAY AP_SUBNET) (trace_of (setupWiFiAP e w)).
Proof.
  intros Hport. repeat apply conj.
  - intros H. rewrite setupWiFiAP_config_rejected by exact H.
    repeat split; reflexivity.
  - intros H1 H2. rewrite setupWiFiAP_start_rejected by assumption.
    repeat split; try reflexivity. cbn. tauto.
  - intros H1 H2. rewrite setupWiFiAP_ready by assumption.
    rewrite Hport. cbn. repeat split; try reflexivity; try exact Hport; tauto.
  - destruct (softAPConfig_ok e) eqn:H1; [destruct (softAP_ok e) eqn:H2|].
    + rewrite setupWiFiAP_ready by assumption. reflexivity.
    + rewrite setupWiFiAP_start_rejected by assumption. reflexivity.
    + rewrite setupWiFiAP_config_rejected by assumption. reflexivity.
  - destruct (softAPConfig_ok e) eqn:H1; [destruct (softAP_ok e) eqn:H2|].
    + rewrite setupWiFiAP_ready by assumption. cbn. tauto.
    + rewrite setupWiFiAP_start_rejected by assumption. cbn. tauto.
    + rewrite setupWiFiAP_config_rejected by assumption. cbn. tauto.
Qed.

(** ** Reading the trace of a pass *)

Lemma reads_of_app a b : reads_of (a ++ b) = reads_of a ++ reads_of b.
Proof.
  induction a as [|x a IH]; [reflexivity|].
  destruct x; cbn; rewrite ?IH; reflexivity.
Qed.

Lemma accepts_of_app a b : accepts_of (a ++ b) = accepts_of a ++ accepts_of b.
Proof.
  induction a as [|x a IH]; [reflexivity|].
  destruct x; cbn; rewrite ?IH; reflexivity.
Qed.

Lemma stops_of_app a b : stops_of (a ++ b) = stops_of a ++ stops_of b.
Proof.
  induction a as [|x a IH]; [reflexivity|].
  destruct x; cbn; rewrite ?IH; reflexivity.
Qed.

Lemma assigns_of_app a b : assigns_of (a ++ b) = assigns_of a ++ assigns_of b.
Proof.
  induction a as [|x a IH]; [reflexivity|].
  destruct x; cbn; rewrite ?IH; reflexivity.
Qed.

Lemma delays_of_app a b : delays_of (a ++ b) = delays_of a ++ delays_of b.
Proof.
  induction a as [|x a IH]; [reflexivity|].
  destruct x; cbn; rewrite ?IH; reflexivity.
Qed.

Lemma heartbeat_trace now e w :
  trace_of (heartbeat now e w) = [] \/
  exists n name heap st, trace_of (heartbeat now e w) = [Status n name heap st].
Proof.
  destruct (5000 <=? u32_sub now (lastHeartbeat w)) eqn:H.
  - apply Z.leb_le in H. rewrite heartbeat_fires by exact H. right.
    do 4 eexists. reflexivity.
  - apply Z.leb_gt in H. rewrite heartbeat_idle by exact H. left. reflexivity.
Qed.

Lemma loop_reads e w :
  reads_of (trace_of (loop e w)) =
  reads_of (trace_of (dispatch (millis e) e (after_heartbeat e w))).
Proof.
  rewrite loop_trace, !reads_of_app. fold (after_heartbeat e w).
  destruct (heartbeat_trace (millis e) e w) as [->|(n & s & h & st & ->)];
    cbn; apply app_nil_r.
Qed.

Lemma loop_accepts e w :
  accepts_of (trace_of (loop e w)) =
  accepts_of (trace_of (dispatch (millis e) e (after_heartbeat e w))).
Proof.
  rewrite loop_trace, !accepts_of_app. fold (after_heartbeat e w).
  destruct (heartbeat_trace (millis e) e w) as [->|(n & s & h & st & ->)];
    cbn; apply app_nil_r.
Qed.

Lemma loop_stops e w :
  stops_of (trace_of (loop e w)) =
  stops_of (trace_of (dispatch (millis e) e (after_heartbeat e w))).
Proof.
  rewrite loop_trace, !stops_of_app. fold (after_heartbeat e w).
  destruct (heartbeat_trace (millis e) e w) as [->|(n & s & h & st & ->)];
    cbn; apply app_nil_r.
Qed.

Lemma loop_assigns e w :
  assigns_of (trace_of (loop e w)) =
  assigns_of (trace_of (dispatch (millis e) e (after_heartbeat e w))).
Proof.
  rewrite loop_trace, !assigns_of_app. fold (after_heartbeat e w).
  destruct (heartbeat_trace (millis e) e w) as [->|(n & s & h & st & ->)];
    cbn; apply app_nil_r.
Qed.

Lemma loop_delays e w :
  delays_of (trace_of (loop e w)) =
  delays_of (trace_of (dispatch (millis e) e (after_heartbeat e w))) ++ [10].
Proof.
  rewrite loop_trace, !delays_of_app. fold (after_heartbeat e w).
  destruct (heartbeat_trace (millis e) e w) as [->|(n & s & h & st & ->)];
    reflexivity.
Qed.

Lemma loop_world' e w :
  world_of (loop e w) = world_of (dispatch (millis e) e (after_heartbeat e w)).
Proof. apply loop_world. Qed.

Lemma after_heartbeat_currentState e w :
  currentState (after_heartbeat e w) = currentState w.
Proof. apply heartbeat_currentState. Qed.

Lemma after_heartbeat_aaClient e w :
  aaClient (after_heartbeat e w) = aaClient w.
Proof. apply heartbeat_aaClient. Qed.

Lemma after_heartbeat_aaServer e w :
  aaServer (after_heartbeat e w) = aaServer w.
Proof. apply heartbeat_aaServer. Qed.

Lemma after_heartbeat_clientConnectedTime e w :
  clientConnectedTime (after_heartbeat e w) = clientConnectedTime w.
Proof. apply heartbeat_clientConnectedTime. Qed.

(** The session handler is what the switch runs in the two session states. *)
Lemma dispatch_session now e w :
  currentState w = CLIENT_CONNECTED \/ currentState w = AA_ACTIVE ->
  dispatch now e w = handleClient e w.
Proof.
  intros [H|H]; rewrite dispatch_eq, H; reflexivity.
Qed.

Lemma drain_accepts lens : forall e w,
  accepts_of (trace_of (drain lens e w)) = [] /\
  stops_of (trace_of (drain lens e w)) = [] /\
  delays_of (trace_of (drain lens e w)) = [].
Proof.
  induction lens as [|len rest IH]; intros e w; [repeat split|].
  cbn [drain]. rewrite bind_emit. cbn [trace_of snd accepts_of stops_of delays_of].
  fold (trace_of (A:=unit)).
  rewrite bind_trace, accepts_of_app, stops_of_app, delays_of_app.
  destruct (IH e (world_of
     ((if 0 <? len
       then emit (DataReceived len);;
            s <- gets currentState;;
            (if State_eqb s CLIENT_CONNECTED
             then set_state AA_ACTIVE;;
                  emit (Serial "[INFO] Android Auto session active")
             else ret tt)
       else ret tt) e w))) as (-> & -> & ->).
  rewrite !app_nil_r.
  destruct (0 <? len); [|repeat split].
  rewrite bind_emit, bind_gets.
  destruct (State_eqb (currentState w) CLIENT_CONNECTED); repeat split.
Qed.

(** ** The session handler *)

(** C5. In a pass that starts in [CLIENT_CONNECTED] or [AA_ACTIVE] and finds
    the peer gone, the handle is released ([stop()] on it, nothing held
    afterwards), [currentState] is [AP_READY] when the pass ends, and the
    pass reads nothing and accepts nothing.  Releasing is idempotent: when
    the handle held nothing before the pass it holds nothing after it, and
    [stop] after [stop] changes nothing. *)
Theorem disconnect_detected (e : Env) (w : World) :
  currentState w = CLIENT_CONNECTED \/ currentState w = AA_ACTIVE ->
  connected e (aaClient w) = false ->
  aaClient (world_of (loop e w)) = None /\
  stops_of (trace_of (loop e w)) = [aaClient w] /\
  currentState (world_of (loop e w)) = AP_READY /\
  assigns_of (trace_of (loop e w)) = [AP_READY] /\
  reads_of (trace_of (loop e w)) = [] /\
  accepts_of (trace_of (loop e w)) = [] /\
  (aaClient w = None -> aaClient (world_of (loop e w)) = aaClient w) /\
  stop (aaClient (world_of (loop e w))) = aaClient (world_of (loop e w)) /\
  (forall c, stop (stop c) = stop c).
Proof.
  intros Hs Hgone.
  rewrite loop_world', loop_stops, loop_assigns, loop_reads, loop_accepts.
  rewrite dispatch_session
    by (rewrite after_heartbeat_currentState; exact Hs).
  rewrite handleClient_gone
    by (rewrite after_heartbeat_aaClient; exact Hgone).
  cbn. rewrite after_heartbeat_aaClient.
  repeat split; auto.
Qed.

Lemma Forall_nonpositive_some_positive lens :
  Forall (fun len => len <= 0) lens -> some_positive lens = false.
Proof.
  unfold some_positive.
  induction 1 as [|len rest Hlen _ IH]; [reflexivity|].
  cbn [existsb]. rewrite IH. apply Z.ltb_ge in Hlen. rewrite Hlen. reflexivity.
Qed.

Lemma some_positive_In lens :
  some_positive lens = true <-> exists len, In len lens /\ 0 < len.
Proof.
  unfold some_positive. rewrite existsb_exists.
  split; intros (len & Hin & H); exists len; split; auto;
    apply Z.ltb_lt; exact H.
Qed.

(** A pass in a session state with the peer present: the reads are the
    lengths the platform hands out, and the state moves only by the
    first-activity edge. *)
Lemma loop_session_alive e w :
  currentState w = CLIENT_CONNECTED \/ currentState w = AA_ACTIVE ->
  connected e (aaClient w) = true ->
  reads_of (trace_of (loop e w)) = rx e /\
  currentState (world_of (loop e w)) =
    (if State_eqb (currentState w) CLIENT_CONNECTED && some_positive (rx e)
     then AA_ACTIVE else currentState w) /\
  aaClient (world_of (loop e w)) = aaClient w /\
  clientConnectedTime (world_of (loop e w)) = clientConnectedTime w /\
  aaServer (world_of (loop e w)) = aaServer w /\
  accepts_of (trace_of (loop e w)) = [] /\
  stops_of (trace_of (loop e w)) = [].
Proof.
  intros Hs Hlive.
  rewrite loop_world', loop_reads, loop_accepts, loop_stops.
  rewrite dispatch_session
    by (rewrite after_heartbeat_currentState; exact Hs).
  rewrite handleClient_alive
    by (rewrite after_heartbeat_aaClient; exact Hlive).
  rewrite drain_reads, drain_world, after_heartbeat_currentState.
  destruct (drain_accepts (rx e) e (after_heartbeat e w)) as (-> & -> & _).
  destruct (State_eqb (currentState w) CLIENT_CONNECTED && some_positive (rx e));
    cbn;
    rewrite ?after_heartbeat_currentState, after_heartbeat_aaClient,
      after_heartbeat_clientConnectedTime, after_heartbeat_aaServer;
    repeat split.
Qed.

Lemma loop_session_gone e w :
  currentState w = CLIENT_CONNECTED \/ currentState w = AA_ACTIVE ->
  connected e (aaClient w) = false ->
  reads_of (trace_of (loop e w)) = [] /\
  currentState (world_of (loop e w)) = AP_READY /\
  aaClient (world_of (loop e w)) = None.
Proof.
  intros Hs Hgone.
  rewrite loop_world', loop_reads.
  rewrite dispatch_session
    by (rewrite after_heartbeat_currentState; exact Hs).
  rewrite handleClient_gone
    by (rewrite after_heartbeat_aaClient; exact Hgone).
  repeat split.
Qed.

Lemma arrive_currentState e w : currentState (arrive e w) = currentState w.
Proof. reflexivity. Qed.

Lemma arrive_aaClient e w : aaClient (arrive e w) = aaClient w.
Proof. reflexivity. Qed.

Lemma arrive_clientConnectedTime e w :
  clientConnectedTime (arrive e w) = clientConnectedTime w.
Proof. reflexivity. Qed.

(** One pass from [AA_ACTIVE]: the session stays active with the same
    handle, or the peer is gone and the handle is released. *)
Lemma loop_from_active e w :
  currentState w = AA_ACTIVE ->
  (connected e (aaClient w) = true /\
   currentState (world_of (loop e w)) = AA_ACTIVE /\
   aaClient (world_of (loop e w)) = aaClient w) \/
  (connected e (aaClient w) = false /\
   currentState (world_of (loop e w)) = AP_READY /\
   aaClient (world_of (loop e w)) = None).
Proof.
  intros Hs. destruct (connected e (aaClient w)) eqn:Hc.
  - left. destruct (loop_session_alive e w (or_intror Hs) Hc)
      as (_ & Hst & Hcl & _).
    rewrite Hst, Hs. cbn. auto.
  - right. destruct (loop_session_gone e w (or_intror Hs) Hc)
      as (_ & Hst & Hcl). auto.
Qed.

Lemma run_app es1 : forall es2 w, run (es1 ++ es2) w = run es2 (run es1 w).
Proof.
  induction es1 as [|e es1 IH]; intros es2 w; [reflexivity|].
  cbn. apply IH.
Qed.

Lemma run_from_active es : forall w,
  currentState w = AA_ACTIVE ->
  (currentState (run es w) = AA_ACTIVE /\ aaClient (run es w) = aaClient w) \/
  exists es1 es2,
    es = es1 ++ es2 /\
    currentState (run es1 w) = AP_READY /\ aaClient (run es1 w) = None.
Proof.
  induction es as [|e es IH]; intros w Hs.
  - left. split; [exact Hs|reflexivity].
  - cbn [run]. unfold tick.
    destruct (loop_from_active e (arrive e w) Hs)
      as [(_ & Hst & Hcl)|(_ & Hst & Hcl)].
    + destruct (IH _ Hst) as [[H1 H2]|(es1 & es2 & Heq & H1 & H2)].
      * left. split; [exact H1|]. rewrite H2, Hcl. reflexivity.
      * right. exists (e :: es1), es2. rewrite Heq. repeat split; assumption.
    + right. exists [e], es. repeat split; assumption.
Qed.

(** C4. A pass that starts in [CLIENT_CONNECTED] and in which some read
    returns a positive length ends in [AA_ACTIVE].  From [AA_ACTIVE] a pass
    ends in [AA_ACTIVE] with the same handle when the peer is there, and in
    [AP_READY] with the handle released when it is gone; so over any number
    of passes the state is [AA_ACTIVE] with the same handle until a pass has
    released the session, and [CLIENT_CONNECTED] is not seen again before. *)
Theorem first_activity_monotone :
  (forall e w,
     currentState w = CLIENT_CONNECTED ->
     (exists len, In len (reads_of (trace_of (loop e w))) /\ 0 < len) ->
     currentState (world_of (loop e w)) = AA_ACTIVE) /\
  (forall e w,
     currentState w = AA_ACTIVE ->
     (connected e (aaClient w) = true /\
      currentState (world_of (loop e w)) = AA_ACTIVE /\
      aaClient (world_of (loop e w)) = aaClient w) \/
     (connected e (aaClient w) = false /\
      currentState (world_of (loop e w)) = AP_READY /\
      aaClient (world_of (loop e w)) = None)) /\
  (forall es w,
     currentState w = AA_ACTIVE ->
     (currentState (run es w) = AA_ACTIVE /\ aaClient (run es w) = aaClient w) \/
     exists es1 es2,
       es = es1 ++ es2 /\
       currentState (run es1 w) = AP_READY /\ aaClient (run es1 w) = None).
Proof.
  split; [|split].
  - intros e w Hs Hread.
    destruct (connected e (aaClient w)) eqn:Hc.
    + destruct (loop_session_alive e w (or_introl Hs) Hc)
        as (Hrd & Hst & _).
      rewrite Hrd in Hread. apply some_positive_In in Hread.
      rewrite Hst, Hs, Hread. reflexivity.
    + destruct (loop_session_gone e w (or_introl Hs) Hc) as (Hrd & _).
      rewrite Hrd in Hread. destruct Hread as (len & [] & _).
  - exact loop_from_active.
  - intros es w. apply run_from_active.
Qed.

(** C10, as the code has it.  In a pass that starts in [CLIENT_CONNECTED]
    with the peer still connected, when every read returns zero or less the
    state is still [CLIENT_CONNECTED] when the pass ends; in any pass from
    [CLIENT_CONNECTED] the state ends as [AA_ACTIVE] only when some read
    returned a positive length.  With the peer gone the pass reads nothing
    and ends in [AP_READY]. *)
Theorem no_activity_without_bytes (e : Env) (w : World) :
  currentState w = CLIENT_CONNECTED ->
  (connected e (aaClient w) = true ->
   Forall (fun len => len <= 0) (reads_of (trace_of (loop e w))) ->
   currentState (world_of (loop e w)) = CLIENT_CONNECTED) /\
  (currentState (world_of (loop e w)) = AA_ACTIVE ->
   exists len, In len (reads_of (trace_of (loop e w))) /\ 0 < len) /\
  (connected e (aaClient w) = false ->
   reads_of (trace_of (loop e w)) = [] /\
   currentState (world_of (loop e w)) = AP_READY).
Proof.
  intros Hs. split; [|split].
  - intros Hc Hall.
    destruct (loop_session_alive e w (or_introl Hs) Hc) as (Hrd & Hst & _).
    rewrite Hrd in Hall.
    rewrite Hst, (Forall_nonpositive_some_positive _ Hall), andb_false_r.
    exact Hs.
  - intros Hact. destruct (connected e (aaClient w)) eqn:Hc.
    + destruct (loop_session_alive e w (or_introl Hs) Hc) as (Hrd & Hst & _).
      rewrite Hrd. apply some_positive_In.
      rewrite Hst, Hs in Hact. cbn in Hact.
      destruct (some_positive (rx e)); [reflexivity|discriminate].
    + destruct (loop_session_gone e w (or_introl Hs) Hc) as (_ & Hst & _).
      rewrite Hst in Hact. discriminate.
  - intros Hc.
    destruct (loop_session_gone e w (or_introl Hs) Hc) as (Hrd & Hst & _).
    auto.
Qed.

(** ** Admission *)

(** The switch accepts a connection and releases a handle in one pass only
    on the reject path of the [AP_READY] arm. *)
Lemma dispatch_rejection now e w :
  accepts_of (trace_of (dispatch now e w)) <> [] ->
  stops_of (trace_of (dispatch now e w)) <> [] ->
  world_of (dispatch now e w) = with_aaServer (snd (available (aaServer w))) w /\
  stops_of (trace_of (dispatch now e w)) =
    accepts_of (trace_of (dispatch now e w)) /\
  currentState w = AP_READY /\
  hasClient (aaServer w) = true /\
  connected e (aaClient w) = true.
Proof.
  dispatch_cases e w; cbn [trace_of snd accepts_of stops_of world_of fst];
    try (destruct (drain_accepts (rx e) e w) as (-> & -> & _));
    intros Ha Hst; try congruence.
  repeat split; assumption.
Qed.

(** C8. A pass that accepts a pending connection and releases a handle is a
    rejection: the handle released is the one just accepted, and the
    existing session keeps its remote address, its admission time and its
    activity flag, as do [aaClient] and [currentState].  The firmware takes
    this path only from [AP_READY] with a live handle. *)
Theorem rejection_leaves_session (e : Env) (w : World) :
  accepts_of (trace_of (loop e w)) <> [] ->
  stops_of (trace_of (loop e w)) <> [] ->
  session_remote (world_of (loop e w)) = session_remote w /\
  session_time (world_of (loop e w)) = session_time w /\
  session_active (world_of (loop e w)) = session_active w /\
  aaClient (world_of (loop e w)) = aaClient w /\
  currentState (world_of (loop e w)) = currentState w /\
  stops_of (trace_of (loop e w)) = accepts_of (trace_of (loop e w)) /\
  currentState w = AP_READY /\
  session_live e w = true.
Proof.
  rewrite loop_world', loop_accepts, loop_stops.
  intros Ha Hst.
  destruct (dispatch_rejection _ _ _ Ha Hst) as (Hw & Heq & Hs & _ & Hc).
  rewrite Hw, Heq.
  unfold session_remote, session_time, session_active, session_live.
  cbn [with_aaServer aaClient clientConnectedTime currentState].
  rewrite after_heartbeat_aaClient in *.
  rewrite after_heartbeat_currentState in *.
  rewrite after_heartbeat_clientConnectedTime.
  repeat split; assumption.
Qed.

(** In the two session states the switch never consults the listener. *)
Lemma session_pass_ignores_listener e w :
  currentState w = CLIENT_CONNECTED \/ currentState w = AA_ACTIVE ->
  accepts_of (trace_of (loop e w)) = [] /\
  aaServer (world_of (loop e w)) = aaServer w.
Proof.
  intros Hs. destruct (connected e (aaClient w)) eqn:Hc.
  - destruct (loop_session_alive e w Hs Hc) as (_ & _ & _ & _ & H1 & H2 & _).
    auto.
  - rewrite loop_world', loop_accepts.
    rewrite dispatch_session
      by (rewrite after_heartbeat_currentState; exact Hs).
    rewrite handleClient_gone
      by (rewrite after_heartbeat_aaClient; exact Hc).
    cbn. rewrite after_heartbeat_aaServer. auto.
Qed.

(** C1, what the code does.  After a good bring-up the phone is admitted
    and becomes active; the tablet then knocks.  In that pass the listener
    is not consulted: nothing is accepted, nothing is released, and the
    tablet stays in the backlog.  When the phone later hangs up the bridge
    returns to [AP_READY], and the pass after that admits the waiting tablet
    as the session. *)
Theorem second_attempt_left_waiting :
  let w3 := run [knocking 100 [phone]; sending 200 [64]] (power_on (quiet 0)) in
  let knock := knocking 300 [tablet] in
  currentState w3 = AA_ACTIVE /\
  aaClient w3 = Some phone /\
  session_live knock w3 = true /\
  hasClient (aaServer (arrive knock w3)) = true /\
  accepts_of (tick_trace knock w3) = [] /\
  stops_of (tick_trace knock w3) = [] /\
  srv_pending (aaServer (tick knock w3)) = [tablet] /\
  currentState (tick knock w3) = AA_ACTIVE /\
  currentState (run [knock; hung_up 400] w3) = AP_READY /\
  currentState (run [knock; hung_up 400; quiet 500] w3) = CLIENT_CONNECTED /\
  aaClient (run [knock; hung_up 400; quiet 500] w3) = Some tablet.
Proof.
  vm_compute. repeat split; reflexivity.
Qed.

(** ** Recovery *)

Lemma loop_recovery e w :
  currentState w = ERROR ->
  world_of (loop e w) = world_of (setupWiFiAP e (after_heartbeat e w)) /\
  trace_of (loop e w) =
    trace_of (heartbeat (millis e) e w) ++
    Delay 5000 :: trace_of (setupWiFiAP e (after_heartbeat e w)) ++ [Delay 10].
Proof.
  intros Hs.
  rewrite loop_world', loop_trace. fold (after_heartbeat e w).
  rewrite dispatch_eq, after_heartbeat_currentState, Hs, recovery_eq.
  split; reflexivity.
Qed.

(** What bring-up does to the outside depends on the globals only through
    the listener's port. *)
Lemma setupWiFiAP_trace_port e w1 w2 :
  srv_port (aaServer w1) = srv_port (aaServer w2) ->
  trace_of (setupWiFiAP e w1) = trace_of (setupWiFiAP e w2).
Proof.
  intros Hp.
  destruct (softAPConfig_ok e) eqn:H1; [destruct (softAP_ok e) eqn:H2|].
  - rewrite !setupWiFiAP_ready by assumption. cbn. rewrite Hp. reflexivity.
  - rewrite !setupWiFiAP_start_rejected by assumption. reflexivity.
  - rewrite !setupWiFiAP_config_rejected by assumption. reflexivity.
Qed.

Lemma setupWiFiAP_frame e w :
  currentState (world_of (setupWiFiAP e w)) =
    (if softAPConfig_ok e && softAP_ok e then AP_READY else ERROR) /\
  aaClient (world_of (setupWiFiAP e w)) = aaClient w /\
  clientConnectedTime (world_of (setupWiFiAP e w)) = clientConnectedTime w /\
  lastHeartbeat (world_of (setupWiFiAP e w)) = lastHeartbeat w /\
  heartbeatCount (world_of (setupWiFiAP e w)) = heartbeatCount w /\
  stops_of (trace_of (setupWiFiAP e w)) = [] /\
  delays_of (trace_of (setupWiFiAP e w)) = [] /\
  hd_error (assigns_of (trace_of (setupWiFiAP e w))) = Some AP_STARTING.
Proof.
  destruct (softAPConfig_ok e) eqn:H1; [destruct (softAP_ok e) eqn:H2|].
  - rewrite setupWiFiAP_ready by assumption. repeat split.
  - rewrite setupWiFiAP_start_rejected by assumption. repeat split.
  - rewrite setupWiFiAP_config_rejected by assumption. repeat split.
Qed.

Lemma setupWiFiAP_config_applied e w :
  In (SoftAPConfig AP_IP AP_GATEWAY AP_SUBNET) (trace_of (setupWiFiAP e w)).
Proof.
  destruct (softAPConfig_ok e) eqn:H1; [destruct (softAP_ok e) eqn:H2|].
  - rewrite setupWiFiAP_ready by assumption. cbn. tauto.
  - rewrite setupWiFiAP_start_rejected by assumption. cbn. tauto.
  - rewrite setupWiFiAP_config_rejected by assumption. cbn. tauto.
Qed.

Lemma tick_recovery e w :
  currentState w = ERROR ->
  currentState (tick e w) =
    (if softAPConfig_ok e && softAP_ok e then AP_READY else ERROR) /\
  aaClient (tick e w) = aaClient w /\
  clientConnectedTime (tick e w) = clientConnectedTime w.
Proof.
  intros Hs. unfold tick.
  destruct (loop_recovery e (arrive e w) Hs) as (-> & _).
  destruct (setupWiFiAP_frame e (after_heartbeat e (arrive e w)))
    as (-> & -> & -> & _).
  rewrite after_heartbeat_aaClient, after_heartbeat_clientConnectedTime.
  auto.
Qed.

Lemma run_refused es : forall w,
  currentState w = ERROR ->
  all_refused es = true ->
  currentState (run es w) = ERROR /\
  aaClient (run es w) = aaClient w /\
  clientConnectedTime (run es w) = clientConnectedTime w.
Proof.
  induction es as [|e es IH]; intros w Hs Hall; [auto|].
  cbn in Hall. apply andb_true_iff in Hall. destruct Hall as [He Hall].
  apply negb_true_iff in He.
  destruct (tick_recovery e w Hs) as (Hst & Hcl & Htm).
  rewrite He in Hst.
  cbn [run]. destruct (IH _ Hst Hall) as (-> & -> & ->). auto.
Qed.

(** C7. A pass that starts in [ERROR] waits 5000 ms, sets [currentState] to
    [AP_STARTING] and runs the whole bring-up, making the calls the bring-up
    at power-on makes under the same answers of the radio, with the same
    constants; it ends in [AP_READY] when the radio obeys and in [ERROR]
    when it refuses.  Refused any number of times in a row the bridge is in
    [ERROR] after each pass, so the next pass retries in the same way: the
    wait is 5000 ms in each, nothing of the session globals changes, and no
    global counts the failures. *)
Theorem recovery_retry :
  (forall e w,
     currentState w = ERROR ->
     srv_port (aaServer w) = AA_PORT ->
     trace_of (loop e w) =
       trace_of (heartbeat (millis e) e w) ++
       Delay 5000 :: trace_of (setupWiFiAP e boot) ++ [Delay 10] /\
     delays_of (trace_of (loop e w)) = [5000; 10] /\
     hd_error (assigns_of (trace_of (loop e w))) = Some AP_STARTING /\
     In (SoftAPConfig AP_IP AP_GATEWAY AP_SUBNET) (trace_of (loop e w)) /\
     currentState (world_of (loop e w)) =
       (if softAPConfig_ok e && softAP_ok e then AP_READY else ERROR) /\
     aaClient (world_of (loop e w)) = aaClient w /\
     clientConnectedTime (world_of (loop e w)) = clientConnectedTime w) /\
  (forall es w,
     currentState w = ERROR ->
     all_refused es = true ->
     currentState (run es w) = ERROR /\
     aaClient (run es w) = aaClient w /\
     clientConnectedTime (run es w) = clientConnectedTime w).
Proof.
  split.
  - intros e w Hs Hport.
    destruct (loop_recovery e w Hs) as (Hw & Ht).
    destruct (setupWiFiAP_frame e (after_heartbeat e w))
      as (Hst & Hcl & Htm & _ & _ & _ & Hdl & Hhd).
    assert (Hsame : trace_of (setupWiFiAP e (after_heartbeat e w)) =
                    trace_of (setupWiFiAP e boot)).
    { apply setupWiFiAP_trace_port.
      rewrite after_heartbeat_aaServer. exact Hport. }
    rewrite loop_delays, loop_assigns, Hw, Hst, Hcl, Htm.
    rewrite after_heartbeat_aaClient, after_heartbeat_clientConnectedTime.
    rewrite dispatch_eq, after_heartbeat_currentState, Hs, recovery_eq.
    cbn [trace_of snd delays_of assigns_of].
    fold (trace_of (A:=unit)). rewrite Hdl, Hhd.
    repeat split; try reflexivity.
    + rewrite Ht, Hsame. reflexivity.
    + rewrite Ht. apply in_or_app. right. right. apply in_or_app. left.
      apply setupWiFiAP_config_applied.
  - intros es w. apply run_refused.
Qed.

(** Once the access point is up the switch never leaves the serving
    states: [ERROR] is entered from bring-up only. *)
Lemma dispatch_serving now e w :
  serving (currentState w) = true ->
  serving (currentState (world_of (dispatch now e w))) = true.
Proof.
  dispatch_cases e w; try discriminate; cbn [world_of fst snd];
    try (rewrite drain_world;
         destruct (State_eqb (currentState w) CLIENT_CONNECTED &&
                   some_positive (rx e)));
    cbn; rewrite ?Hs; auto.
Qed.

Lemma tick_serving e w :
  serving (currentState w) = true ->
  serving (currentState (tick e w)) = true.
Proof.
  intros H. unfold tick. rewrite loop_world'.
  apply dispatch_serving. rewrite after_heartbeat_currentState. exact H.
Qed.

Lemma power_on_world e : power_on e = world_of (setupWiFiAP e boot).
Proof.
  unfold power_on, setup. rewrite bind_emit. cbn [world_of fst snd].
  rewrite bind_emit. reflexivity.
Qed.



(** ** The heartbeat over a run *)

Lemma power_on_lastHeartbeat e0 : lastHeartbeat (power_on e0) = 0.
Proof.
  rewrite power_on_world.
  destruct (setupWiFiAP_frame e0 boot) as (_ & _ & _ & -> & _). reflexivity.
Qed.

(** [lastHeartbeat] is the clock reading of the last pass that printed a
    status line. *)
Lemma run_lastHeartbeat es : forall w,
  lastHeartbeat (run es w) = last_fired (lastHeartbeat w) es w.
Proof.
  induction es as [|e es IH]; intros w; [reflexivity|].
  cbn [run last_fired]. rewrite IH. f_equal.
  unfold tick, tick_trace. rewrite loop_lastHeartbeat, loop_heartbeats.
  change (lastHeartbeat (arrive e w)) with (lastHeartbeat w).
  destruct (5000 <=? u32_sub (millis e) (lastHeartbeat w)); reflexivity.
Qed.

(** C6.  In every pass through [loop], whatever the value of [currentState]
    ([ERROR] included): when the time elapsed since the last firing, as the
    32-bit millisecond clock measures it, is at least 5000 ms, exactly one
    status line is printed; when it is less, none is.  The measured time is
    the true elapsed time [d] whenever [d] is below 2^32 ms, also across a
    wrap of the clock.  The reference is the last firing: a pass that fires
    records its own clock reading in [lastHeartbeat], a pass that does not
    leaves it alone, so in a run from power-on a pass fires exactly when
    its reading is at least 5000 ms past the reading of the last pass that
    printed a status line (past 0, the value at boot, before the first). *)
Theorem heartbeat_period (e : Env) (w : World) :
  (5000 <= u32_sub (millis e) (lastHeartbeat w) ->
   heartbeats (trace_of (loop e w)) = 1%nat) /\
  (u32_sub (millis e) (lastHeartbeat w) < 5000 ->
   heartbeats (trace_of (loop e w)) = 0%nat) /\
  (forall d, 0 <= d < UINT32_MOD -> millis e = u32 (lastHeartbeat w + d) ->
     heartbeats (trace_of (loop e w)) = if 5000 <=? d then 1%nat else 0%nat) /\
  (5000 <= u32_sub (millis e) (lastHeartbeat w) ->
   lastHeartbeat (world_of (loop e w)) = millis e) /\
  (u32_sub (millis e) (lastHeartbeat w) < 5000 ->
   lastHeartbeat (world_of (loop e w)) = lastHeartbeat w) /\
  (forall e0 es,
     lastHeartbeat (run es (power_on e0)) = last_fired 0 es (power_on e0) /\
     heartbeats (tick_trace e (run es (power_on e0))) =
       if 5000 <=? u32_sub (millis e) (last_fired 0 es (power_on e0))
       then 1%nat else 0%nat).
Proof.
  rewrite loop_heartbeats, loop_lastHeartbeat.
  split; [|split; [|split; [|split; [|split]]]].
  - intros H. apply Z.leb_le in H. rewrite H. reflexivity.
  - intros H. apply Z.leb_gt in H. rewrite H. reflexivity.
  - intros d Hd Hnow. rewrite Hnow, u32_sub_wrapped by exact Hd. reflexivity.
  - intros H. apply Z.leb_le in H. rewrite H. reflexivity.
  - intros H. apply Z.leb_gt in H. rewrite H. reflexivity.
  - intros e0 es.
    pose proof (run_lastHeartbeat es (power_on e0)) as Hl.
    rewrite power_on_lastHeartbeat in Hl.
    split; [exact Hl|].
    unfold tick_trace. rewrite loop_heartbeats.
    change (lastHeartbeat (arrive e (run es (power_on e0))))
      with (lastHeartbeat (run es (power_on e0))).
    rewrite Hl. reflexivity.
Qed.

(** ** The theorems at concrete passes *)

Lemma heartbeat_period_witness :
  5000 <= u32_sub (millis (quiet 5000)) (lastHeartbeat error_after_boot) /\
  heartbeats (trace_of (loop (quiet 5000) error_after_boot)) = 1%nat /\
  lastHeartbeat (world_of (loop (quiet 5000) error_after_boot)) = 5000 /\
  heartbeats (tick_trace (quiet 9999)
                (run [quiet 10; quiet 5000; quiet 5010] (power_on (quiet 0)))) =
    0%nat /\
  heartbeats (tick_trace (quiet 10000)
                (run [quiet 10; quiet 5000; quiet 5010] (power_on (quiet 0)))) =
    1%nat.
Proof.
  assert (H : 5000 <= u32_sub (millis (quiet 5000))
                              (lastHeartbeat error_after_boot))
    by (vm_compute; discriminate).
  split; [exact H|].
  split; [exact (proj1 (heartbeat_period (quiet 5000) error_after_boot) H)|].
  split;
    [exact (proj1 (proj2 (proj2 (proj2
              (heartbeat_period (quiet 5000) error_after_boot)))) H)|].
  split.
  - exact (proj2 (proj2 (proj2 (proj2 (proj2 (proj2
             (heartbeat_period (quiet 9999) boot)))))
             (quiet 0) [quiet 10; quiet 5000; quiet 5010])).
  - exact (proj2 (proj2 (proj2 (proj2 (proj2 (proj2
             (heartbeat_period (quiet 10000) boot)))))
             (quiet 0) [quiet 10; quiet 5000; quiet 5010])).
Defined.

Lemma heartbeat_bookkeeping_witness :
  5000 <= u32_sub (millis (quiet 5000)) (lastHeartbeat phone_connected) /\
  lastHeartbeat (world_of (loop (quiet 5000) phone_connected)) = 5000 /\
  heartbeatCount (world_of (loop (quiet 5000) phone_connected)) = 1.
Proof.
  assert (H : 5000 <= u32_sub (millis (quiet 5000))
                              (lastHeartbeat phone_connected))
    by (vm_compute; discriminate).
  split; [exact H|].
  destruct (proj1 (heartbeat_bookkeeping (quiet 5000) phone_connected) H)
    as (H1 & H2 & _).
  split; [exact H1|exact H2].
Defined.

Lemma bring_up_outcome_witness :
  srv_port (aaServer boot) = AA_PORT /\
  softAPConfig_ok (quiet 0) = true /\ softAP_ok (quiet 0) = true /\
  currentState (world_of (setupWiFiAP (quiet 0) boot)) = AP_READY.
Proof.
  split; [reflexivity|]. split; [reflexivity|]. split; [reflexivity|].
  destruct (bring_up_outcome (quiet 0) boot eq_refl) as (_ & _ & H & _).
  destruct (H eq_refl eq_refl) as (Hs & _). exact Hs.
Defined.

Lemma disconnect_detected_witness :
  (currentState phone_connected = CLIENT_CONNECTED \/
   currentState phone_connected = AA_ACTIVE) /\
  connected (hung_up 2000) (aaClient phone_connected) = false /\
  aaClient (world_of (loop (hung_up 2000) phone_connected)) = None /\
  currentState (world_of (loop (hung_up 2000) phone_connected)) = AP_READY.
Proof.
  split; [left; reflexivity|]. split; [reflexivity|].
  destruct (disconnect_detected (hung_up 2000) phone_connected
              (or_introl eq_refl) eq_refl) as (H1 & _ & H2 & _).
  split; [exact H1|exact H2].
Defined.

Lemma first_activity_monotone_witness :
  currentState phone_connected = CLIENT_CONNECTED /\
  In 64 (reads_of (trace_of (loop (sending 2000 [64]) phone_connected))) /\
  currentState (world_of (loop (sending 2000 [64]) phone_connected)) = AA_ACTIVE.
Proof.
  assert (Hin : In 64 (reads_of (trace_of (loop (sending 2000 [64])
                                                phone_connected))))
    by (vm_compute; left; reflexivity).
  split; [reflexivity|]. split; [exact Hin|].
  apply (proj1 first_activity_monotone); [reflexivity|].
  exists 64. split; [exact Hin|lia].
Defined.

Lemma no_activity_without_bytes_witness :
  currentState phone_connected = CLIENT_CONNECTED /\
  connected (sending 2000 [0; -1]) (aaClient phone_connected) = true /\
  Forall (fun len => len <= 0)
    (reads_of (trace_of (loop (sending 2000 [0; -1]) phone_connected))) /\
  currentState (world_of (loop (sending 2000 [0; -1]) phone_connected)) =
    CLIENT_CONNECTED.
Proof.
  assert (Hall : Forall (fun len => len <= 0)
            (reads_of (trace_of (loop (sending 2000 [0; -1]) phone_connected))))
    by (vm_compute; repeat constructor; discriminate).
  split; [reflexivity|]. split; [reflexivity|]. split; [exact Hall|].
  exact (proj1 (no_activity_without_bytes (sending 2000 [0; -1])
                  phone_connected eq_refl) eq_refl Hall).
Defined.

Lemma rejection_leaves_session_witness :
  accepts_of (trace_of (loop (quiet 2000) ready_holding_phone)) <> [] /\
  stops_of (trace_of (loop (quiet 2000) ready_holding_phone)) <> [] /\
  session_remote (world_of (loop (quiet 2000) ready_holding_phone)) =
    session_remote ready_holding_phone /\
  session_time (world_of (loop (quiet 2000) ready_holding_phone)) =
    session_time ready_holding_phone /\
  session_active (world_of (loop (quiet 2000) ready_holding_phone)) =
    session_active ready_holding_phone.
Proof.
  assert (Ha : accepts_of (trace_of (loop (quiet 2000) ready_holding_phone))
               <> []) by (vm_compute; discriminate).
  assert (Hs : stops_of (trace_of (loop (quiet 2000) ready_holding_phone))
               <> []) by (vm_compute; discriminate).
  split; [exact Ha|]. split; [exact Hs|].
  destruct (rejection_leaves_session (quiet 2000) ready_holding_phone Ha Hs)
    as (H1 & H2 & H3 & _).
  repeat split; assumption.
Defined.

Lemma recovery_retry_witness :
  currentState error_after_boot = ERROR /\
  srv_port (aaServer error_after_boot) = AA_PORT /\
  all_refused [refusing 6000; misconfigured 12000] = true /\
  delays_of (trace_of (loop (refusing 6000) error_after_boot)) = [5000; 10] /\
  currentState (run [refusing 6000; misconfigured 12000] error_after_boot) =
    ERROR.
Proof.
  split; [reflexivity|]. split; [reflexivity|]. split; [reflexivity|].
  split.
  - destruct (proj1 recovery_retry (refusing 6000) error_after_boot
                eq_refl eq_refl) as (_ & H & _).
    exact H.
  - destruct (proj2 recovery_retry [refusing 6000; misconfigured 12000]
                error_after_boot eq_refl eq_refl) as (H & _).
    exact H.
Defined.


(** ** Where the spec and the code part *)

(** C9 at a concrete pass: the counter at 4294967295 when a heartbeat
    fires.  The counter is 0 afterwards: it has not grown by one, and it
    has decreased. *)
Lemma heartbeat_counter_wraps_counterexample :
  heartbeats (trace_of (loop (quiet 5000) counter_at_max)) = 1%nat /\
  heartbeatCount counter_at_max = 4294967295 /\
  heartbeatCount (world_of (loop (quiet 5000) counter_at_max)) = 0 /\
  heartbeatCount (world_of (loop (quiet 5000) counter_at_max)) <>
    heartbeatCount counter_at_max + 1 /\
  ~ heartbeatCount counter_at_max <=
    heartbeatCount (world_of (loop (quiet 5000) counter_at_max)).
Proof.
  vm_compute. repeat split; try reflexivity; try discriminate.
  intros H. apply H. reflexivity.
Qed.

(** C10 at a concrete pass: [CLIENT_CONNECTED] with the peer gone.  The
    pass performs no read at all, so every read it performs returned zero
    or less, and the state is [AP_READY], not [CLIENT_CONNECTED], at its
    end. *)
Lemma no_bytes_but_disconnect_counterexample :
  currentState phone_connected = CLIENT_CONNECTED /\
  Forall (fun len => len <= 0)
    (reads_of (trace_of (loop (hung_up 2000) phone_connected))) /\
  currentState (world_of (loop (hung_up 2000) phone_connected)) = AP_READY /\
  currentState (world_of (loop (hung_up 2000) phone_connected)) <>
    CLIENT_CONNECTED.
Proof.
  vm_compute. repeat split; try reflexivity; try discriminate.
  constructor.
Qed.

(** ** Further properties of the firmware *)

Lemma data_of_app a b : data_of (a ++ b) = data_of a ++ data_of b.
Proof.
  induction a as [|x a IH]; [reflexivity|].
  destruct x; cbn; rewrite ?IH; reflexivity.
Qed.

Lemma status_counts_app a b :
  status_counts (a ++ b) = status_counts a ++ status_counts b.
Proof.
  induction a as [|x a IH]; [reflexivity|].
  destruct x; cbn; rewrite ?IH; reflexivity.
Qed.

Lemma drain_data lens : forall e w,
  data_of (trace_of (drain lens e w)) = filter (fun l => 0 <? l) lens.
Proof.
  induction lens as [|len rest IH]; intros e w; [reflexivity|].
  cbn [drain filter]. rewrite bind_emit. cbn [trace_of snd data_of].
  fold (trace_of (A:=unit)).
  rewrite bind_trace, data_of_app, IH.
  destruct (0 <? len); [|reflexivity].
  rewrite bind_emit, bind_gets.
  destruct (State_eqb (currentState w) CLIENT_CONNECTED); reflexivity.
Qed.

Lemma drain_assigns lens : forall e w,
  assigns_of (trace_of (drain lens e w)) =
  if State_eqb (currentState w) CLIENT_CONNECTED && some_positive lens
  then [AA_ACTIVE] else [].
Proof.
  induction lens as [|len rest IH]; intros e w.
  - cbn. rewrite andb_false_r. reflexivity.
  - cbn [drain some_positive existsb]. rewrite bind_emit.
    cbn [trace_of snd assigns_of]. fold (trace_of (A:=unit)).
    rewrite bind_trace, assigns_of_app, IH.
    destruct (0 <? len) eqn:Hlen.
    + rewrite bind_emit. cbn [world_of trace_of fst snd assigns_of].
      rewrite bind_gets.
      destruct (currentState w) eqn:Hs; cbn; rewrite ?Hs; reflexivity.
    + cbn. reflexivity.
Qed.

(** X13.  In a pass through a session state with the peer connected, the
    read loop performs one read per length the platform hands out, in order;
    it prints one data line per read that returned a positive length, in
    order, and none for the others; and it assigns [currentState] at most
    once: [AA_ACTIVE], when the pass began in [CLIENT_CONNECTED] and some
    read was positive. *)
Theorem read_loop_log (e : Env) (w : World) :
  currentState w = CLIENT_CONNECTED \/ currentState w = AA_ACTIVE ->
  connected e (aaClient w) = true ->
  reads_of (trace_of (loop e w)) = rx e /\
  data_of (trace_of (loop e w)) = filter (fun l => 0 <? l) (rx e) /\
  assigns_of (trace_of (loop e w)) =
    (if State_eqb (currentState w) CLIENT_CONNECTED && some_positive (rx e)
     then [AA_ACTIVE] else []).
Proof.
  intros Hs Hc.
  destruct (loop_session_alive e w Hs Hc) as (Hrd & _).
  split; [exact Hrd|].
  rewrite loop_assigns, loop_trace, !data_of_app.
  fold (after_heartbeat e w).
  rewrite dispatch_session
    by (rewrite after_heartbeat_currentState; exact Hs).
  rewrite handleClient_alive
    by (rewrite after_heartbeat_aaClient; exact Hc).
  rewrite drain_data, drain_assigns, after_heartbeat_currentState.
  destruct (heartbeat_trace (millis e) e w) as [->|(n & s & h & st & ->)];
    cbn [data_of app]; rewrite app_nil_r; auto.
Qed.

Lemma read_loop_log_witness :
  (currentState phone_connected = CLIENT_CONNECTED \/
   currentState phone_connected = AA_ACTIVE) /\
  connected (sending 2000 [0; 64; -1; 512]) (aaClient phone_connected) = true /\
  data_of (trace_of (loop (sending 2000 [0; 64; -1; 512]) phone_connected)) =
    [64; 512].
Proof.
  split; [left; reflexivity|]. split; [reflexivity|].
  destruct (read_loop_log (sending 2000 [0; 64; -1; 512]) phone_connected
              (or_introl eq_refl) eq_refl) as (_ & H & _).
  exact H.
Defined.

Lemma available_head s c rest :
  srv_listening s = true ->
  srv_pending s = c :: rest ->
  hasClient s = true /\
  available s = (Some c, mkServer (srv_port s) true (srv_noDelay s) rest).
Proof.
  intros Hl Hp. unfold hasClient, available. rewrite Hl, Hp. auto.
Qed.

(** X1.  A pass in [AP_READY] with a connection waiting, no live session
    and the waiting peer connected takes the oldest connection of the
    backlog as the session: it becomes [aaClient], [clientConnectedTime] is
    the clock reading of the pass, the state is [CLIENT_CONNECTED], the
    peer's address is printed, the rest of the backlog keeps waiting, and
    nothing is released. *)
Theorem admission_of_oldest (e : Env) (w : World) (c : Socket)
    (rest : list Socket) :
  currentState w = AP_READY ->
  srv_listening (aaServer w) = true ->
  srv_pending (aaServer w) = c :: rest ->
  connected e (aaClient w) = false ->
  link e c = true ->
  currentState (world_of (loop e w)) = CLIENT_CONNECTED /\
  aaClient (world_of (loop e w)) = Some c /\
  clientConnectedTime (world_of (loop e w)) = millis e /\
  srv_pending (aaServer (world_of (loop e w))) = rest /\
  accepts_of (trace_of (loop e w)) = [Some c] /\
  stops_of (trace_of (loop e w)) = [] /\
  assigns_of (trace_of (loop e w)) = [CLIENT_CONNECTED] /\
  In (RemoteIP (Some (sock_remote c))) (trace_of (loop e w)).
Proof.
  intros Hs Hl Hp Hdead Hlive.
  destruct (available_head _ _ _ Hl Hp) as (Hhas & Hav).
  assert (Heq : dispatch (millis e) e (after_heartbeat e w) =
    (tt,
     with_clientConnectedTime (millis e)
       (with_currentState CLIENT_CONNECTED
          (with_aaClient (Some c)
             (with_aaServer
                (mkServer (srv_port (aaServer w)) true
                          (srv_noDelay (aaServer w)) rest)
                (after_heartbeat e w)))),
     [ServerAccept (Some c); Assign CLIENT_CONNECTED;
      Serial "[INFO] Client connected!"; RemoteIP (Some (sock_remote c))])).
  { rewrite dispatch_eq, after_heartbeat_currentState, Hs.
    rewrite check_accept; rewrite ?after_heartbeat_aaServer,
      ?after_heartbeat_aaClient, ?Hav; auto. }
  rewrite loop_world', loop_accepts, loop_stops, loop_assigns, loop_trace.
  fold (after_heartbeat e w). rewrite Heq. cbn.
  repeat split.
  apply in_or_app. right. cbn. tauto.
Qed.

Lemma admission_of_oldest_witness :
  currentState ready_phone_waiting = AP_READY /\
  connected (quiet 700) (aaClient ready_phone_waiting) = false /\
  link (quiet 700) phone = true /\
  aaClient (world_of (loop (quiet 700) ready_phone_waiting)) = Some phone /\
  clientConnectedTime (world_of (loop (quiet 700) ready_phone_waiting)) = 700 /\
  srv_pending (aaServer (world_of (loop (quiet 700) ready_phone_waiting))) =
    [tablet].
Proof.
  split; [reflexivity|]. split; [reflexivity|]. split; [reflexivity|].
  destruct (admission_of_oldest (quiet 700) ready_phone_waiting phone [tablet]
              eq_refl eq_refl eq_refl eq_refl eq_refl)
    as (_ & H1 & H2 & H3 & _).
  split; [exact H1|]. split; [exact H2|exact H3].
Defined.

(** X2.  When the connection taken off the listener tests as not connected,
    the pass leaves the state at [AP_READY] and [clientConnectedTime] as it
    was, yet the connection has left the backlog and now sits in [aaClient],
    and the pass has not called [stop()] on anything. *)
Theorem accepted_but_dead (e : Env) (w : World) (c : Socket)
    (rest : list Socket) :
  currentState w = AP_READY ->
  srv_listening (aaServer w) = true ->
  srv_pending (aaServer w) = c :: rest ->
  connected e (aaClient w) = false ->
  link e c = false ->
  currentState (world_of (loop e w)) = AP_READY /\
  aaClient (world_of (loop e w)) = Some c /\
  clientConnectedTime (world_of (loop e w)) = clientConnectedTime w /\
  srv_pending (aaServer (world_of (loop e w))) = rest /\
  accepts_of (trace_of (loop e w)) = [Some c] /\
  stops_of (trace_of (loop e w)) = [] /\
  assigns_of (trace_of (loop e w)) = [].
Proof.
  intros Hs Hl Hp Hdead Hlive.
  destruct (available_head _ _ _ Hl Hp) as (Hhas & Hav).
  assert (Heq : dispatch (millis e) e (after_heartbeat e w) =
    (tt,
     with_aaClient (Some c)
       (with_aaServer
          (mkServer (srv_port (aaServer w)) true
                    (srv_noDelay (aaServer w)) rest)
          (after_heartbeat e w)),
     [ServerAccept (Some c)])).
  { rewrite dispatch_eq, after_heartbeat_currentState, Hs.
    rewrite check_stillborn; rewrite ?after_heartbeat_aaServer,
      ?after_heartbeat_aaClient, ?Hav; auto. }
  rewrite loop_world', loop_accepts, loop_stops, loop_assigns.
  rewrite Heq. cbn.
  rewrite after_heartbeat_currentState, after_heartbeat_clientConnectedTime.
  repeat split. exact Hs.
Qed.

Lemma accepted_but_dead_witness :
  currentState ready_phone_waiting = AP_READY /\
  connected (phone_gone 700) (aaClient ready_phone_waiting) = false /\
  link (phone_gone 700) phone = false /\
  currentState (world_of (loop (phone_gone 700) ready_phone_waiting)) =
    AP_READY /\
  aaClient (world_of (loop (phone_gone 700) ready_phone_waiting)) = Some phone.
Proof.
  split; [reflexivity|]. split; [reflexivity|]. split; [reflexivity|].
  destruct (accepted_but_dead (phone_gone 700) ready_phone_waiting phone
              [tablet] eq_refl eq_refl eq_refl eq_refl eq_refl)
    as (H1 & H2 & _).
  split; [exact H1|exact H2].
Defined.

Lemma tick_idle_state e w :
  currentState w = INIT \/ currentState w = AP_STARTING ->
  currentState (tick e w) = currentState w.
Proof.
  intros Hs. unfold tick. rewrite loop_world', dispatch_eq.
  rewrite after_heartbeat_currentState, arrive_currentState.
  destruct Hs as [Hs|Hs]; rewrite Hs; cbn;
    rewrite after_heartbeat_currentState, arrive_currentState; exact Hs.
Qed.

Lemma run_idle_state es : forall w,
  currentState w = INIT \/ currentState w = AP_STARTING ->
  currentState (run es w) = currentState w.
Proof.
  induction es as [|e es IH]; intros w Hs; [reflexivity|].
  cbn [run]. pose proof (tick_idle_state e w Hs) as Ht.
  rewrite IH by (rewrite Ht; exact Hs). exact Ht.
Qed.

(** X3.  A pass in [INIT] or [AP_STARTING], or in [AP_READY] with nothing
    at the listener, does nothing but the heartbeat check and the 10 ms
    wait: state, session handle, admission time and listener are what they
    were.  So [loop] alone never brings the access point up: from [INIT] or
    [AP_STARTING] every run of passes ends in the state it began in. *)
Theorem idle_pass (e : Env) (w : World) :
  (currentState w = INIT \/ currentState w = AP_STARTING \/
   (currentState w = AP_READY /\ hasClient (aaServer w) = false) ->
   trace_of (loop e w) = trace_of (heartbeat (millis e) e w) ++ [Delay 10] /\
   currentState (world_of (loop e w)) = currentState w /\
   aaClient (world_of (loop e w)) = aaClient w /\
   clientConnectedTime (world_of (loop e w)) = clientConnectedTime w /\
   aaServer (world_of (loop e w)) = aaServer w) /\
  (currentState w = INIT \/ currentState w = AP_STARTING ->
   forall es, currentState (run es w) = currentState w).
Proof.
  split.
  - intros Hs.
    assert (Heq : dispatch (millis e) e (after_heartbeat e w) =
                  (tt, after_heartbeat e w, [])).
    { rewrite dispatch_eq, after_heartbeat_currentState.
      destruct Hs as [Hs|[Hs|[Hs Hh]]]; rewrite Hs; try reflexivity.
      apply check_none_pending. rewrite after_heartbeat_aaServer. exact Hh. }
    rewrite loop_world', loop_trace. fold (after_heartbeat e w).
    rewrite Heq. cbn.
    rewrite after_heartbeat_currentState, after_heartbeat_aaClient,
      after_heartbeat_clientConnectedTime, after_heartbeat_aaServer.
    repeat split.
  - intros Hs es. apply run_idle_state. exact Hs.
Qed.

Lemma idle_pass_witness :
  currentState boot = INIT /\
  currentState (world_of (loop (quiet 5000) boot)) = INIT /\
  currentState (run [quiet 10; quiet 5000; knocking 5010 [phone]] boot) = INIT.
Proof.
  split; [reflexivity|]. split.
  - destruct (proj1 (idle_pass (quiet 5000) boot) (or_introl eq_refl))
      as (_ & H & _).
    exact H.
  - exact (proj2 (idle_pass (quiet 5000) boot) (or_introl eq_refl)
             [quiet 10; quiet 5000; knocking 5010 [phone]]).
Defined.

Lemma dispatch_backlog now e w :
  (accepts_of (trace_of (dispatch now e w)) = [] /\
   srv_pending (aaServer (world_of (dispatch now e w))) =
     srv_pending (aaServer w)) \/
  (exists c,
     currentState w = AP_READY /\
     accepts_of (trace_of (dispatch now e w)) = [Some c] /\
     srv_pending (aaServer w) =
       c :: srv_pending (aaServer (world_of (dispatch now e w)))).
Proof.
  dispatch_cases e w; cbn [trace_of snd accepts_of world_of fst];
    try (left; split; reflexivity);
    try (left; destruct (drain_accepts (rx e) e w) as (-> & _);
         destruct (drain_frame (rx e) e w) as (_ & _ & _ & _ & ->);
         split; reflexivity);
    try (right;
         match goal with
         | H : hasClient (aaServer w) = true |- _ =>
             destruct (hasClient_pending _ H) as (c & rest & _ & Hp & ->)
         end;
         exists c; cbn; rewrite Hp; repeat split; reflexivity).
Qed.

(** X4.  A pass takes at most one connection off the listener, and it is
    the one that has waited longest: either nothing is accepted and the
    backlog is what it was, or the pass began in [AP_READY], accepted the
    head of the backlog, and left the rest waiting in order. *)
Theorem backlog_first_in_first_out (e : Env) (w : World) :
  (accepts_of (trace_of (loop e w)) = [] /\
   srv_pending (aaServer (world_of (loop e w))) = srv_pending (aaServer w)) \/
  (exists c,
     currentState w = AP_READY /\
     accepts_of (trace_of (loop e w)) = [Some c] /\
     srv_pending (aaServer w) =
       c :: srv_pending (aaServer (world_of (loop e w)))).
Proof.
  rewrite loop_world', loop_accepts.
  destruct (dispatch_backlog (millis e) e (after_heartbeat e w))
    as [(Ha & Hp)|(c & Hs & Ha & Hp)].
  - left. rewrite Ha, Hp, after_heartbeat_aaServer. auto.
  - right. exists c.
    rewrite after_heartbeat_currentState in Hs.
    rewrite after_heartbeat_aaServer in Hp. auto.
Qed.

Lemma dispatch_delays now e w :
  delays_of (trace_of (dispatch now e w)) =
  match currentState w with ERROR => [5000] | _ => [] end.
Proof.
  dispatch_cases e w; cbn [trace_of snd delays_of]; try reflexivity;
    destruct (drain_accepts (rx e) e w) as (_ & _ & ->); reflexivity.
Qed.

(** X5.  The blocking waits of a pass: 10 ms at its end and nothing else in
    every state but [ERROR], where the 5000 ms recovery wait comes first. *)
Theorem blocking_time (e : Env) (w : World) :
  delays_of (trace_of (loop e w)) =
  match currentState w with ERROR => [5000; 10] | _ => [10] end.
Proof.
  rewrite loop_delays, dispatch_delays, after_heartbeat_currentState.
  destruct (currentState w); reflexivity.
Qed.

Lemma dispatch_follows now e w :
  follows (currentState w) (assigns_of (trace_of (dispatch now e w))) = true /\
  currentState (world_of (dispatch now e w)) =
    last (assigns_of (trace_of (dispatch now e w))) (currentState w).
Proof.
  dispatch_cases e w; cbn [trace_of snd assigns_of world_of fst];
    try (rewrite drain_assigns, drain_world, Hs; cbn;
         destruct (some_positive (rx e)); cbn);
    rewrite ?Hs; auto.
Qed.

(** X9.  Every assignment a pass makes to [currentState] follows one of the
    eight edges [INIT -> AP_STARTING], [ERROR -> AP_STARTING],
    [AP_STARTING -> AP_READY], [AP_STARTING -> ERROR],
    [AP_READY -> CLIENT_CONNECTED], [CLIENT_CONNECTED -> AA_ACTIVE],
    [CLIENT_CONNECTED -> AP_READY], [AA_ACTIVE -> AP_READY], and the state at
    the end of the pass is the last one assigned (the state at its start
    when none was).  The same holds of [setup] at power-on. *)
Theorem state_moves_along_edges (e : Env) (w : World) :
  follows (currentState w) (assigns_of (trace_of (loop e w))) = true /\
  currentState (world_of (loop e w)) =
    last (assigns_of (trace_of (loop e w))) (currentState w) /\
  follows INIT (assigns_of (trace_of (setup e boot))) = true /\
  currentState (power_on e) =
    last (assigns_of (trace_of (setup e boot))) INIT.
Proof.
  rewrite loop_world', loop_assigns.
  destruct (dispatch_follows (millis e) e (after_heartbeat e w)) as (H1 & H2).
  rewrite after_heartbeat_currentState in *.
  split; [exact H1|]. split; [exact H2|].
  rewrite power_on_world. unfold setup.
  rewrite bind_emit. cbn [trace_of snd assigns_of].
  rewrite bind_emit. cbn [trace_of snd assigns_of].
  fold (trace_of (A:=unit)).
  destruct (softAPConfig_ok e) eqn:Hc; [destruct (softAP_ok e) eqn:Ha|].
  - rewrite setupWiFiAP_ready by assumption. split; reflexivity.
  - rewrite setupWiFiAP_start_rejected by assumption. split; reflexivity.
  - rewrite setupWiFiAP_config_rejected by assumption. split; reflexivity.
Qed.

Lemma stateToString_inj a b : stateToString a = stateToString b -> a = b.
Proof.
  destruct a, b; cbn; intros H; try reflexivity; discriminate.
Qed.

(** X8.  [stateToString] gives different states different names, so the
    state can be read back from a status line: two names are the same
    string exactly when the two states are the same. *)
Theorem stateToString_injective (a b : State) :
  String.eqb (stateToString a) (stateToString b) = State_eqb a b.
Proof.
  destruct a, b; reflexivity.
Qed.

Lemma printf_d_small z : 0 <= z <= INT32_MAX -> printf_d z = z.
Proof.
  intros H. unfold printf_d, u32, UINT32_MOD, INT32_MAX in *.
  rewrite Z.mod_small by lia.
  destruct (z <=? 2 ^ 31 - 1) eqn:Hle; [reflexivity|].
  apply Z.leb_gt in Hle. lia.
Qed.

Lemma printf_d_large z :
  INT32_MAX < z < UINT32_MOD -> printf_d z = z - UINT32_MOD.
Proof.
  intros H. unfold printf_d, u32, UINT32_MOD, INT32_MAX in *.
  rewrite Z.mod_small by lia.
  destruct (z <=? 2 ^ 31 - 1) eqn:Hle; [|reflexivity].
  apply Z.leb_le in Hle. lia.
Qed.

(** X7.  When the heartbeat fires, the status line is the first thing the
    pass does.  It shows the counter after the increment, as [%d] prints a
    [uint32_t]: the counter itself up to 2147483647, the counter minus 2^32
    (a negative number) above.  It shows the name of the state in which the
    pass began, whatever the switch makes of the state afterwards in the
    same pass, and it is the only status line of the pass. *)
Theorem status_line_content (e : Env) (w : World) :
  5000 <= u32_sub (millis e) (lastHeartbeat w) ->
  hd_error (trace_of (loop e w)) =
    Some (Status (printf_d (heartbeatCount (world_of (loop e w))))
                 (stateToString (currentState w))
                 (printf_d (freeHeap e)) (stationNum e)) /\
  status_counts (trace_of (loop e w)) =
    [printf_d (heartbeatCount (world_of (loop e w)))] /\
  heartbeatCount (world_of (loop e w)) = u32_incr (heartbeatCount w) /\
  (0 <= heartbeatCount (world_of (loop e w)) <= INT32_MAX ->
   status_counts (trace_of (loop e w)) =
     [heartbeatCount (world_of (loop e w))]) /\
  (INT32_MAX < heartbeatCount (world_of (loop e w)) < UINT32_MOD ->
   status_counts (trace_of (loop e w)) =
     [heartbeatCount (world_of (loop e w)) - UINT32_MOD]).
Proof.
  intros H.
  assert (Hd : status_counts
                 (trace_of (dispatch (millis e) e (after_heartbeat e w))) = []).
  { pose proof (dispatch_no_heartbeat (millis e) e (after_heartbeat e w)) as Hn.
    revert Hn. generalize (trace_of (dispatch (millis e) e (after_heartbeat e w))).
    induction l as [|x l IH]; [reflexivity|].
    unfold heartbeats in *. destruct x; cbn; try exact IH. discriminate. }
  rewrite loop_heartbeatCount, loop_trace, !status_counts_app.
  fold (after_heartbeat e w). rewrite Hd.
  rewrite heartbeat_fires by exact H.
  apply Z.leb_le in H. rewrite H. cbn [trace_of snd app hd_error status_counts].
  split; [reflexivity|]. split; [reflexivity|]. split; [reflexivity|].
  split; intros Hr.
  - rewrite printf_d_small by exact Hr. reflexivity.
  - rewrite printf_d_large by exact Hr. reflexivity.
Qed.

Lemma status_line_content_witness :
  5000 <= u32_sub (millis (quiet 6000)) (lastHeartbeat error_after_boot) /\
  hd_error (trace_of (loop (quiet 6000) error_after_boot)) =
    Some (Status 1 "ERROR" 200000 0) /\
  currentState (world_of (loop (quiet 6000) error_after_boot)) = AP_READY.
Proof.
  assert (H : 5000 <= u32_sub (millis (quiet 6000))
                              (lastHeartbeat error_after_boot))
    by (vm_compute; discriminate).
  split; [exact H|]. split; [|reflexivity].
  exact (proj1 (status_line_content (quiet 6000) error_after_boot H)).
Defined.

(** ** The heartbeat's globals steer nothing *)

Lemma unit_result (r : unit * World * list Event) :
  r = (tt, world_of r, trace_of r).
Proof. destruct r as [[[] w] t]. reflexivity. Qed.

Lemma rehb_self w : rehb (lastHeartbeat w) (heartbeatCount w) w = w.
Proof. destruct w. reflexivity. Qed.

Lemma after_heartbeat_rehb e w :
  after_heartbeat e w =
  rehb (lastHeartbeat (after_heartbeat e w))
       (heartbeatCount (after_heartbeat e w)) w.
Proof.
  unfold after_heartbeat.
  destruct (5000 <=? u32_sub (millis e) (lastHeartbeat w)) eqn:H.
  - apply Z.leb_le in H. rewrite heartbeat_fires by exact H. reflexivity.
  - apply Z.leb_gt in H. rewrite heartbeat_idle by exact H.
    cbn. symmetry. apply rehb_self.
Qed.

Lemma drain_trace_state lens : forall e w1 w2,
  currentState w1 = currentState w2 ->
  trace_of (drain lens e w1) = trace_of (drain lens e w2).
Proof.
  induction lens as [|len rest IH]; intros e w1 w2 Hs; [reflexivity|].
  cbn [drain]. rewrite !bind_emit. cbn [trace_of snd].
  fold (trace_of (A:=unit)). f_equal.
  rewrite !bind_trace.
  destruct (0 <? len).
  - rewrite !bind_emit, !bind_gets. cbn [world_of trace_of fst snd].
    rewrite Hs.
    destruct (State_eqb (currentState w2) CLIENT_CONNECTED); cbn.
    + rewrite (IH e (with_currentState AA_ACTIVE w1)
                    (with_currentState AA_ACTIVE w2) eq_refl).
      reflexivity.
    + rewrite (IH e w1 w2 Hs). reflexivity.
  - cbn. apply IH. exact Hs.
Qed.

Lemma dispatch_rehb now e w lh hc :
  dispatch now e (rehb lh hc w) =
  (tt, rehb lh hc (world_of (dispatch now e w)), trace_of (dispatch now e w)).
Proof.
  rewrite (unit_result (dispatch now e (rehb lh hc w))).
  rewrite (dispatch_eq now e (rehb lh hc w)).
  change (currentState (rehb lh hc w)) with (currentState w).
  dispatch_cases e w; cbn [world_of trace_of fst snd].
  - reflexivity.
  - reflexivity.
  - rewrite check_reject by assumption. reflexivity.
  - rewrite check_accept by assumption. reflexivity.
  - rewrite check_stillborn by assumption. reflexivity.
  - rewrite check_none_pending by assumption. reflexivity.
  - rewrite handleClient_alive by assumption.
    rewrite (drain_trace_state (rx e) e (rehb lh hc w) w eq_refl).
    rewrite !drain_world. cbn [currentState rehb].
    destruct (State_eqb (currentState w) CLIENT_CONNECTED &&
              some_positive (rx e)); reflexivity.
  - rewrite handleClient_gone by assumption. reflexivity.
  - rewrite handleClient_alive by assumption.
    rewrite (drain_trace_state (rx e) e (rehb lh hc w) w eq_refl).
    rewrite !drain_world. cbn [currentState rehb].
    destruct (State_eqb (currentState w) CLIENT_CONNECTED &&
              some_positive (rx e)); reflexivity.
  - rewrite handleClient_gone by assumption. reflexivity.
  - rewrite recovery_eq, setupWiFiAP_ready by assumption. reflexivity.
  - rewrite recovery_eq, setupWiFiAP_start_rejected by assumption.
    reflexivity.
  - rewrite recovery_eq, setupWiFiAP_config_rejected by assumption.
    reflexivity.
Qed.

Lemma loop_skeleton e w :
  exists lh hc,
    world_of (loop e w) = rehb lh hc (world_of (dispatch (millis e) e w)) /\
    filter (fun ev => negb (is_status ev)) (trace_of (loop e w)) =
      filter (fun ev => negb (is_status ev))
             (trace_of (dispatch (millis e) e w) ++ [Delay 10]).
Proof.
  pose proof (after_heartbeat_rehb e w) as H.
  remember (lastHeartbeat (after_heartbeat e w)) as lh eqn:Hlh.
  remember (heartbeatCount (after_heartbeat e w)) as hc eqn:Hhc.
  exists lh, hc.
  rewrite loop_world', loop_trace. fold (after_heartbeat e w).
  rewrite H, dispatch_rehb. cbn [world_of trace_of fst snd].
  split; [reflexivity|].
  rewrite filter_app.
  destruct (heartbeat_trace (millis e) e w) as [->|(n & s & h & st & ->)];
    reflexivity.
Qed.

(** X6.  [lastHeartbeat] and [heartbeatCount] have no effect on what a pass
    does to the bridge: with any other values in these two globals the pass
    ends with the same state, session handle, admission time and listener,
    and its trace is the same once the status lines are left out. *)
Theorem heartbeat_globals_steer_nothing (e : Env) (w : World) (lh hc : Z) :
  currentState (world_of (loop e (rehb lh hc w))) =
    currentState (world_of (loop e w)) /\
  aaClient (world_of (loop e (rehb lh hc w))) = aaClient (world_of (loop e w)) /\
  clientConnectedTime (world_of (loop e (rehb lh hc w))) =
    clientConnectedTime (world_of (loop e w)) /\
  aaServer (world_of (loop e (rehb lh hc w))) = aaServer (world_of (loop e w)) /\
  filter (fun ev => negb (is_status ev)) (trace_of (loop e (rehb lh hc w))) =
    filter (fun ev => negb (is_status ev)) (trace_of (loop e w)).
Proof.
  destruct (loop_skeleton e w) as (a & b & -> & ->).
  destruct (loop_skeleton e (rehb lh hc w)) as (a' & b' & -> & ->).
  rewrite dispatch_rehb. cbn [world_of trace_of fst snd].
  repeat split.
Qed.

(** ** What holds throughout a run from power-on *)

Lemma dispatch_consistent now e w :
  consistent w -> consistent (world_of (dispatch now e w)).
Proof.
  unfold consistent.
  dispatch_cases e w; cbn [world_of fst snd]; intros (Hport & Hrest);
    try contradiction;
    try (match goal with
         | H : hasClient (aaServer w) = true |- _ =>
             destruct (hasClient_pending _ H) as (c & rest & Hl & Hp & Hav);
             rewrite Hav in *
         end);
    try (rewrite drain_world;
         destruct (State_eqb (currentState w) CLIENT_CONNECTED &&
                   some_positive (rx e)));
    cbn; rewrite ?Hs; cbn; intuition auto.
Qed.

Lemma arrive_consistent e w : consistent w -> consistent (arrive e w).
Proof.
  unfold consistent, arrive, enqueue. cbn.
  destruct (srv_listening (aaServer w)) eqn:Hl; cbn;
    destruct (currentState w); cbn; rewrite ?Hl; intuition congruence.
Qed.

Lemma tick_consistent e w : consistent w -> consistent (tick e w).
Proof.
  intros H. unfold tick. rewrite loop_world', after_heartbeat_rehb.
  rewrite dispatch_rehb. cbn [world_of fst snd].
  apply (dispatch_consistent (millis e) e (arrive e w)).
  apply arrive_consistent. exact H.
Qed.

Lemma power_on_consistent e : consistent (power_on e).
Proof.
  rewrite power_on_world. unfold consistent.
  destruct (softAPConfig_ok e) eqn:Hc; [destruct (softAP_ok e) eqn:Ha|].
  - rewrite setupWiFiAP_ready by assumption. cbn. auto.
  - rewrite setupWiFiAP_start_rejected by assumption. cbn. auto.
  - rewrite setupWiFiAP_config_rejected by assumption. cbn. auto.
Qed.

Lemma run_consistent es : forall w, consistent w -> consistent (run es w).
Proof.
  induction es as [|e es IH]; intros w H; [exact H|].
  cbn [run]. apply IH, tick_consistent, H.
Qed.

(** X10.  After power-on and any number of passes: the state is never
    [INIT] or [AP_STARTING]; the listener's port is [AA_PORT]; in
    [AP_READY], [CLIENT_CONNECTED] and [AA_ACTIVE] the listener is open with
    no-delay set; in the two session states [aaClient] holds a connection;
    and in [ERROR] the listener has never been opened, no connection waits
    at it, [aaClient] holds nothing and no session was ever admitted. *)
Theorem reachable_worlds (e0 : Env) (es : list Env) :
  let w := run es (power_on e0) in
  currentState w <> INIT /\ currentState w <> AP_STARTING /\
  srv_port (aaServer w) = AA_PORT /\
  (serving (currentState w) = true ->
   srv_listening (aaServer w) = true /\ srv_noDelay (aaServer w) = true) /\
  (currentState w = CLIENT_CONNECTED \/ currentState w = AA_ACTIVE ->
   holds_connection (aaClient w) = true) /\
  (currentState w = ERROR ->
   aaClient w = None /\ srv_listening (aaServer w) = false /\
   srv_pending (aaServer w) = [] /\ clientConnectedTime w = 0).
Proof.
  intros w.
  pose proof (run_consistent es _ (power_on_consistent e0)) as H.
  fold w in H. unfold consistent in H. destruct H as (Hport & H).
  destruct (currentState w); cbn; try contradiction;
    repeat split; try discriminate; try tauto;
    intros; try discriminate; intuition discriminate.
Qed.

Lemma reachable_worlds_witness :
  currentState (run [knocking 100 [phone]; sending 200 [64]]
                    (power_on (quiet 0))) = AA_ACTIVE /\
  holds_connection
    (aaClient (run [knocking 100 [phone]; sending 200 [64]]
                   (power_on (quiet 0)))) = true /\
  currentState (run [refusing 6000] (power_on (misconfigured 0))) = ERROR /\
  srv_pending (aaServer (run [refusing 6000] (power_on (misconfigured 0)))) = [].
Proof.
  split; [reflexivity|]. split.
  - destruct (reachable_worlds (quiet 0)
                [knocking 100 [phone]; sending 200 [64]])
      as (_ & _ & _ & _ & H & _).
    apply H. right. reflexivity.
  - split; [reflexivity|].
    destruct (reachable_worlds (misconfigured 0) [refusing 6000])
      as (_ & _ & _ & _ & _ & H).
    destruct (H eq_refl) as (_ & _ & Hp & _). exact Hp.
Defined.

Lemma existsb_radio_app a b :
  existsb is_radio (a ++ b) = existsb is_radio a || existsb is_radio b.
Proof. apply existsb_app. Qed.

Lemma drain_no_radio lens : forall e w,
  existsb is_radio (trace_of (drain lens e w)) = false.
Proof.
  induction lens as [|len rest IH]; intros e w; [reflexivity|].
  cbn [drain]. rewrite bind_emit. cbn [trace_of snd existsb is_radio orb].
  fold (trace_of (A:=unit)).
  rewrite bind_trace, existsb_radio_app, IH, orb_false_r.
  destruct (0 <? len); [|reflexivity].
  rewrite bind_emit, bind_gets.
  destruct (State_eqb (currentState w) CLIENT_CONNECTED); reflexivity.
Qed.

Lemma dispatch_no_radio now e w :
  serving (currentState w) = true ->
  existsb is_radio (trace_of (dispatch now e w)) = false.
Proof.
  dispatch_cases e w; cbn [trace_of snd]; try discriminate; intros _;
    try reflexivity; apply drain_no_radio.
Qed.

Lemma tick_no_radio e w :
  serving (currentState w) = true ->
  existsb is_radio (tick_trace e w) = false.
Proof.
  intros H. unfold tick_trace. rewrite loop_trace, !existsb_radio_app.
  fold (after_heartbeat e (arrive e w)).
  rewrite dispatch_no_radio
    by (rewrite after_heartbeat_currentState; exact H).
  destruct (heartbeat_trace (millis e) e (arrive e w))
    as [->|(n & s & h & st & ->)]; reflexivity.
Qed.

Lemma run_no_radio es : forall w,
  serving (currentState w) = true ->
  serving (currentState (run es w)) = true /\
  existsb is_radio (run_trace es w) = false.
Proof.
  induction es as [|e es IH]; intros w H; [auto|].
  cbn [run run_trace]. rewrite existsb_radio_app, tick_no_radio by exact H.
  apply IH, tick_serving, H.
Qed.

(** X11.  Once the access point is up ([AP_READY], [CLIENT_CONNECTED] or
    [AA_ACTIVE]) no run of passes ever enters [ERROR] or any state outside
    these three, and none ever calls the radio or the listener's set-up
    again: bring-up is retried before its first success only. *)
Theorem no_bring_up_after_success (es : list Env) (w : World) :
  serving (currentState w) = true ->
  serving (currentState (run es w)) = true /\
  currentState (run es w) <> ERROR /\
  existsb is_radio (run_trace es w) = false.
Proof.
  intros H. destruct (run_no_radio es w H) as (H1 & H2).
  repeat split; try assumption.
  intros Herr. rewrite Herr in H1. discriminate.
Qed.

Lemma no_bring_up_after_success_witness :
  serving (currentState phone_connected) = true /\
  existsb is_radio
    (run_trace [hung_up 2000; knocking 2010 [tablet]; refusing 2020]
               phone_connected) = false.
Proof.
  split; [reflexivity|].
  exact (proj2 (proj2 (no_bring_up_after_success
                         [hung_up 2000; knocking 2010 [tablet]; refusing 2020]
                         phone_connected eq_refl))).
Defined.

(** ** The numbering of the status lines *)

Lemma status_counts_length t : List.length (status_counts t) = heartbeats t.
Proof.
  unfold heartbeats.
  induction t as [|x t IH]; [reflexivity|].
  destruct x; cbn; rewrite ?IH; reflexivity.
Qed.

Lemma dispatch_status_counts now e w :
  status_counts (trace_of (dispatch now e w)) = [].
Proof.
  pose proof (dispatch_no_heartbeat now e w) as Hn.
  rewrite <- status_counts_length in Hn.
  destruct (status_counts (trace_of (dispatch now e w))); [reflexivity|].
  discriminate.
Qed.

Lemma tick_status e w :
  (heartbeats (tick_trace e w) = 0%nat /\
   status_counts (tick_trace e w) = [] /\
   heartbeatCount (tick e w) = heartbeatCount w) \/
  (heartbeats (tick_trace e w) = 1%nat /\
   status_counts (tick_trace e w) = [printf_d (u32_incr (heartbeatCount w))] /\
   heartbeatCount (tick e w) = u32_incr (heartbeatCount w)).
Proof.
  unfold tick, tick_trace.
  rewrite loop_heartbeats, loop_heartbeatCount, loop_trace, !status_counts_app.
  rewrite dispatch_status_counts.
  change (lastHeartbeat (arrive e w)) with (lastHeartbeat w).
  change (heartbeatCount (arrive e w)) with (heartbeatCount w).
  destruct (5000 <=? u32_sub (millis e) (lastHeartbeat w)) eqn:H.
  - right. apply Z.leb_le in H.
    rewrite heartbeat_fires by exact H. auto.
  - left. apply Z.leb_gt in H.
    rewrite heartbeat_idle by exact H. auto.
Qed.

Lemma u32_range z : 0 <= u32 z < UINT32_MOD.
Proof. unfold u32, UINT32_MOD. apply Z.mod_pos_bound. reflexivity. Qed.

Lemma u32_incr_add z k : u32 (u32_incr z + k) = u32 (z + (1 + k)).
Proof.
  unfold u32_incr, u32. rewrite Zplus_mod_idemp_l. f_equal. lia.
Qed.

Lemma printf_d_u32 a b : u32 a = u32 b -> printf_d a = printf_d b.
Proof. unfold printf_d. intros ->. reflexivity. Qed.

Lemma run_status es : forall w,
  0 <= heartbeatCount w < UINT32_MOD ->
  status_counts (run_trace es w) =
    map (fun k => printf_d (heartbeatCount w + Z.of_nat k))
        (seq 1 (heartbeats (run_trace es w))) /\
  heartbeatCount (run es w) =
    u32 (heartbeatCount w + Z.of_nat (heartbeats (run_trace es w))).
Proof.
  induction es as [|e es IH]; intros w Hr.
  - cbn. split; [reflexivity|].
    rewrite Z.add_0_r. symmetry. apply Z.mod_small. exact Hr.
  - cbn [run run_trace]. rewrite status_counts_app, heartbeats_app.
    destruct (tick_status e w) as [(Hn & Hc & Hh)|(Hn & Hc & Hh)];
      rewrite Hn, Hc.
    + destruct (IH (tick e w)) as (IH1 & IH2); [rewrite Hh; exact Hr|].
      rewrite Hh in IH1, IH2. auto.
    + destruct (IH (tick e w)) as (IH1 & IH2);
        [rewrite Hh; apply u32_range|].
      rewrite Hh in IH1, IH2. rewrite IH1, IH2.
      cbn [app plus seq map]. split.
      * f_equal.
        -- apply printf_d_u32. unfold u32_incr, u32.
           rewrite Z.mod_mod by (unfold UINT32_MOD; lia). reflexivity.
        -- rewrite <- (seq_shift _ 1), map_map. apply map_ext. intros k.
           apply printf_d_u32. rewrite u32_incr_add. f_equal. lia.
      * rewrite u32_incr_add. f_equal. lia.
Qed.

(** X12.  In a run from power-on the status lines show the numbers 1, 2,
    3, ... as [%d] prints a [uint32_t]: the [k]-th line shows [k] read as a
    signed 32-bit number, so the numbers are consecutive without gap or
    repetition as long as at most 2147483647 lines were printed, and go on
    from -2147483648 after that.  [heartbeatCount] is the number of status
    lines printed so far (modulo 2^32). *)
Theorem status_lines_numbered (e0 : Env) (es : list Env) :
  status_counts (run_trace es (power_on e0)) =
    map (fun k => printf_d (Z.of_nat k))
        (seq 1 (heartbeats (run_trace es (power_on e0)))) /\
  heartbeatCount (run es (power_on e0)) =
    u32 (Z.of_nat (heartbeats (run_trace es (power_on e0)))) /\
  (Z.of_nat (heartbeats (run_trace es (power_on e0))) <= INT32_MAX ->
   status_counts (run_trace es (power_on e0)) =
     map Z.of_nat (seq 1 (heartbeats (run_trace es (power_on e0))))).
Proof.
  assert (H0 : heartbeatCount (power_on e0) = 0).
  { rewrite power_on_world.
    destruct (setupWiFiAP_frame e0 boot) as (_ & _ & _ & _ & -> & _).
    reflexivity. }
  destruct (run_status es (power_on e0)) as (H1 & H2).
  { rewrite H0. unfold UINT32_MOD. lia. }
  rewrite H0 in H1, H2. cbn [Z.add] in H1, H2.
  split; [exact H1|]. split; [exact H2|].
  intros Hn. rewrite H1. apply map_ext_in. intros k Hk.
  apply in_seq in Hk. apply printf_d_small. lia.
Qed.

Lemma status_lines_numbered_witness :
  Z.of_nat (heartbeats
    (run_trace [quiet 5000; quiet 5010; quiet 10000; quiet 15000]
               (power_on (quiet 0)))) <= INT32_MAX /\
  status_counts
    (run_trace [quiet 5000; quiet 5010; quiet 10000; quiet 15000]
               (power_on (quiet 0))) = [1; 2; 3].
Proof.
  assert (H : Z.of_nat (heartbeats
    (run_trace [quiet 5000; quiet 5010; quiet 10000; quiet 15000]
               (power_on (quiet 0)))) <= INT32_MAX)
    by (vm_compute; discriminate).
  split; [exact H|].
  exact (proj2 (proj2 (status_lines_numbered (quiet 0)
           [quiet 5000; quiet 5010; quiet 10000; quiet 15000])) H).
Defined.

(** ** A new session after the old one *)

Lemma loop_admission e w c rest :
  currentState w = AP_READY ->
  srv_listening (aaServer w) = true ->
  srv_pending (aaServer w) = c :: rest ->
  connected e (aaClient w) = false ->
  link e c = true ->
  currentState (world_of (loop e w)) = CLIENT_CONNECTED /\
  aaClient (world_of (loop e w)) = Some c /\
  clientConnectedTime (world_of (loop e w)) = millis e /\
  srv_pending (aaServer (world_of (loop e w))) = rest.
Proof.
  intros Hs Hl Hp Hdead Hlive.
  destruct (available_head _ _ _ Hl Hp) as (Hhas & Hav).
  rewrite loop_world', dispatch_eq, after_heartbeat_currentState, Hs.
  rewrite check_accept; rewrite ?after_heartbeat_aaServer,
    ?after_heartbeat_aaClient, ?Hav; auto.
Qed.

(** X14.  From a session state, a pass that finds the peer gone followed by
    a pass that finds a connected peer first in the backlog ends with that
    peer as the session: state [CLIENT_CONNECTED], the handle on the new
    connection, the admission time that of the second pass, the rest of the
    backlog still waiting.  The connections counted are those that waited
    before and those that arrived before either pass. *)
Theorem reconnect_after_disconnect (e1 e2 : Env) (w : World) (c : Socket)
    (rest : list Socket) :
  currentState w = CLIENT_CONNECTED \/ currentState w = AA_ACTIVE ->
  srv_listening (aaServer w) = true ->
  connected e1 (aaClient w) = false ->
  (srv_pending (aaServer w) ++ arrivals e1) ++ arrivals e2 = c :: rest ->
  link e2 c = true ->
  currentState (run [e1] w) = AP_READY /\
  currentState (run [e1; e2] w) = CLIENT_CONNECTED /\
  aaClient (run [e1; e2] w) = Some c /\
  clientConnectedTime (run [e1; e2] w) = millis e2 /\
  srv_pending (aaServer (run [e1; e2] w)) = rest.
Proof.
  intros Hs Hl Hgone Hp Hlive. cbn [run].
  assert (H1 : currentState (tick e1 w) = AP_READY /\
               aaClient (tick e1 w) = None /\
               aaServer (tick e1 w) = aaServer (arrive e1 w)).
  { unfold tick.
    destruct (loop_session_gone e1 (arrive e1 w) Hs Hgone) as (_ & Ha & Hb).
    destruct (session_pass_ignores_listener e1 (arrive e1 w) Hs) as (_ & Hc).
    auto. }
  destruct H1 as (Hst & Hcl & Hsrv).
  split; [exact Hst|].
  unfold tick at 1 3 5 7.
  apply loop_admission.
  - exact Hst.
  - cbn. unfold enqueue. rewrite Hsrv. cbn. unfold enqueue. rewrite Hl.
    cbn. reflexivity.
  - cbn. unfold enqueue. rewrite Hsrv. cbn. unfold enqueue. rewrite Hl.
    cbn. exact Hp.
  - cbn. rewrite Hcl. reflexivity.
  - exact Hlive.
Qed.

Lemma reconnect_after_disconnect_witness :
  (currentState phone_active_tablet_waiting = CLIENT_CONNECTED \/
   currentState phone_active_tablet_waiting = AA_ACTIVE) /\
  connected (phone_gone 3000) (aaClient phone_active_tablet_waiting) = false /\
  link (quiet 3010) tablet = true /\
  aaClient (run [phone_gone 3000; quiet 3010] phone_active_tablet_waiting) =
    Some tablet /\
  clientConnectedTime
    (run [phone_gone 3000; quiet 3010] phone_active_tablet_waiting) = 3010.
Proof.
  split; [right; reflexivity|]. split; [reflexivity|]. split; [reflexivity|].
  destruct (reconnect_after_disconnect (phone_gone 3000) (quiet 3010)
              phone_active_tablet_waiting tablet []
              (or_intror eq_refl) eq_refl eq_refl eq_refl eq_refl)
    as (_ & _ & H1 & H2 & _).
  split; [exact H1|exact H2].
Defined.

(** ** Recovery succeeds as soon as the radio obeys *)

Lemma tick_recovered e w :
  currentState w = ERROR ->
  softAPConfig_ok e = true -> softAP_ok e = true ->
  currentState (tick e w) = AP_READY /\
  aaServer (tick e w) = setNoDelay true (begin (aaServer (arrive e w))) /\
  aaClient (tick e w) = aaClient w.
Proof.
  intros Hs Hc Ha. unfold tick.
  destruct (loop_recovery e (arrive e w) Hs) as (-> & _).
  rewrite setupWiFiAP_ready by assumption. cbn [world_of fst snd].
  cbn. rewrite after_heartbeat_aaServer, after_heartbeat_aaClient. auto.
Qed.

(** X15.  From [ERROR], after any number of refused retries, the first pass
    in which the radio accepts both the address configuration and the
    activation ends in [AP_READY] with the listener open and no-delay set;
    the session handle is what it was before the retries. *)
Theorem recovery_succeeds (es : list Env) (e : Env) (w : World) :
  currentState w = ERROR ->
  all_refused es = true ->
  softAPConfig_ok e = true ->
  softAP_ok e = true ->
  currentState (run (es ++ [e]) w) = AP_READY /\
  srv_listening (aaServer (run (es ++ [e]) w)) = true /\
  srv_noDelay (aaServer (run (es ++ [e]) w)) = true /\
  aaClient (run (es ++ [e]) w) = aaClient w.
Proof.
  intros Hs Hall Hc Ha.
  destruct (run_refused es w Hs Hall) as (Hst & Hcl & _).
  rewrite run_app. cbn [run].
  destruct (tick_recovered e (run es w) Hst Hc Ha) as (-> & -> & ->).
  rewrite Hcl. repeat split.
Qed.

Lemma recovery_succeeds_witness :
  currentState error_after_boot = ERROR /\
  all_refused [refusing 6000; misconfigured 12000] = true /\
  currentState (run ([refusing 6000; misconfigured 12000] ++ [quiet 18000])
                    error_after_boot) = AP_READY /\
  srv_listening
    (aaServer (run ([refusing 6000; misconfigured 12000] ++ [quiet 18000])
                   error_after_boot)) = true.
Proof.
  split; [reflexivity|]. split; [reflexivity|].
  destruct (recovery_succeeds [refusing 6000; misconfigured 12000]
              (quiet 18000) error_after_boot eq_refl eq_refl eq_refl eq_refl)
    as (H1 & H2 & _).
  split; [exact H1|exact H2].
Defined.

(** ** The spacing of the status lines *)

Lemma tick_lastHeartbeat e w :
  lastHeartbeat (tick e w) =
  if 5000 <=? u32_sub (millis e) (lastHeartbeat w)
  then millis e else lastHeartbeat w.
Proof. unfold tick. rewrite loop_lastHeartbeat. reflexivity. Qed.

Lemma tick_heartbeats e w :
  heartbeats (tick_trace e w) =
  if 5000 <=? u32_sub (millis e) (lastHeartbeat w) then 1%nat else 0%nat.
Proof. unfold tick_trace. rewrite loop_heartbeats. reflexivity. Qed.

(** X16.  The period is measured from the pass that printed the last status
    line, not from a fixed grid: after a pass that fired at clock reading
    [millis e1], the next pass fires exactly when its own reading is at
    least 5000 ms later, and passes that come sooner print nothing and
    leave the reference reading untouched. *)
Theorem status_lines_spacing (e1 e2 : Env) (w : World) :
  5000 <= u32_sub (millis e1) (lastHeartbeat w) ->
  heartbeats (tick_trace e2 (tick e1 w)) =
    (if 5000 <=? u32_sub (millis e2) (millis e1) then 1%nat else 0%nat) /\
  (u32_sub (millis e2) (millis e1) < 5000 ->
   lastHeartbeat (run [e1; e2] w) = millis e1).
Proof.
  intros H. apply Z.leb_le in H.
  assert (Hl : lastHeartbeat (tick e1 w) = millis e1)
    by (rewrite tick_lastHeartbeat, H; reflexivity).
  rewrite tick_heartbeats, Hl. split; [reflexivity|].
  intros Hlt. apply Z.leb_gt in Hlt.
  cbn [run]. rewrite tick_lastHeartbeat, Hl, Hlt. reflexivity.
Qed.

Lemma status_lines_spacing_witness :
  5000 <= u32_sub (millis (quiet 7000)) (lastHeartbeat phone_connected) /\
  heartbeats (tick_trace (quiet 11999) (tick (quiet 7000) phone_connected)) =
    0%nat /\
  heartbeats (tick_trace (quiet 12000) (tick (quiet 7000) phone_connected)) =
    1%nat.
Proof.
  assert (H : 5000 <= u32_sub (millis (quiet 7000))
                              (lastHeartbeat phone_connected))
    by (vm_compute; discriminate).
  split; [exact H|]. split.
  - exact (proj1 (status_lines_spacing (quiet 7000) (quiet 11999)
                    phone_connected H)).
  - exact (proj1 (status_lines_spacing (quiet 7000) (quiet 12000)
                    phone_connected H)).
Defined.
